(** * The groupchat (MUC) utilities of converse.js

    A shallow embedding of [src/headless/plugins/muc/utils.js]: the role
    policy, the page-unload and invitation handlers, the auto-join routine
    and the handlers for XEP-0316 room notifications (MEP), together with
    the properties that the specification states about them.

    JavaScript values are an inductive type, Backbone models are finite
    maps from attribute names to values, and every function with an effect
    runs in a state-and-exception monad over a [World] that holds the
    settings, the chatbox collection, the store of mutable objects and the
    trace of calls made to collaborators that live outside this module. *)

From stdpp Require Import gmap strings list fin_maps pretty.

#[local] Set Warnings "-register-all".
#[local] Open Scope string_scope.
#[local] Open Scope list_scope.

(** ** JavaScript values *)

(** Numbers are integers here: nothing in this module computes with them,
    they only occur as configuration entries of the wrong shape. *)
Inductive Value : Type :=
  | VUndefined
  | VNull
  | VBool (b : bool)
  | VNum (n : Z)
  | VStr (s : string)
  | VArr (elems : list Value)
  | VObj (fields : gmap string Value).

(** A Backbone model's attribute hash, and also a plain settings object. *)
Abbreviation Model := (gmap string Value).

(** [model.get(key)], [obj.key]: a missing attribute reads as [undefined]. *)
Definition model_get (m : Model) (key : string) : Value :=
  default VUndefined (m !! key).

(** ToBoolean, as used by [!x], [x ? a : b] and [if (x)]. *)
Definition to_boolean (v : Value) : bool :=
  match v with
  | VUndefined | VNull => false
  | VBool b => b
  | VNum n => negb (n =? 0)%Z
  | VStr s => negb (String.eqb s EmptyString)
  | VArr _ | VObj _ => true
  end.

(** [a === b] on primitives.  Arrays and objects compare by identity, which
    a value does not carry, so they are never equal here; the module only
    ever compares against strings and [null]. *)
Definition strict_equals (a b : Value) : bool :=
  match a, b with
  | VUndefined, VUndefined => true
  | VNull, VNull => true
  | VBool x, VBool y => Bool.eqb x y
  | VNum x, VNum y => (x =? y)%Z
  | VStr x, VStr y => String.eqb x y
  | _, _ => false
  end.

(** [typeof v === 'string'] *)
Definition is_string (v : Value) : bool :=
  match v with VStr _ => true | _ => false end.

(** lodash's [isObject]: true of objects and of arrays. *)
Definition isObject (v : Value) : bool :=
  match v with VArr _ | VObj _ => true | _ => false end.

(** [Array.prototype.includes] (SameValueZero agrees with [===] here). *)
Definition includes (arr : list Value) (x : Value) : bool :=
  existsb (fun e => strict_equals e x) arr.

(** The own enumerable properties that [{ ...v }] copies: the fields of an
    object, the indices of an array, nothing for a primitive. *)
Definition spread (v : Value) : Model :=
  match v with
  | VObj fields => fields
  | VArr elems => list_to_map (imap (fun i e => (pretty i, e)) elems)
  | _ => ∅
  end.

(** [element.getAttribute(name)] is a string, or [null] when absent. *)
Definition of_attr (a : option string) : Value :=
  match a with Some s => VStr s | None => VNull end.

(** An attribute spliced into a template literal. *)
Definition attr_string (a : option string) : string :=
  match a with Some s => s | None => "null" end.

(** ** Constants imported from the rest of the plugin *)

(** Modelled from the spec: [ROLES] is exported by [muc/index.js], which is
    not among the sources; the role set is visitor, participant and
    moderator, listed in the order in which the expected result
    ['participant','visitor'] is reported. *)
Definition ROLES : list string := ["moderator"; "participant"; "visitor"].

(** [_converse.CHATROOMS_TYPE]; the comment above [openChatRoom] gives its
    value: the "type" is set to "chatroom". *)
Definition CHATROOMS_TYPE : string := "chatroom".

(** Modelled from the spec: [converse.ROOMSTATUS] is defined outside the
    sources; a room session is disconnected, connecting or connected. *)
Inductive ROOMSTATUS : Type :=
  | DISCONNECTED
  | CONNECTING
  | CONNECTED.

Definition ROOMSTATUS_eqb (a b : ROOMSTATUS) : bool :=
  match a, b with
  | DISCONNECTED, DISCONNECTED | CONNECTING, CONNECTING
  | CONNECTED, CONNECTED => true
  | _, _ => false
  end.

(** ** Stanzas *)

(** The [x] element of a direct invitation (XEP-0249) and its attributes. *)
Record XConference : Type := {
  x_jid : option string;
  x_reason : option string;
  x_password : option string
}.

(** What this module reads off an incoming message stanza: the [from] and
    [id] attributes, how many [event] elements in the pubsub-event namespace
    the selector engine finds in it, the last [x] element in the
    [jabber:x:conference] namespace, and the texts of the activity records
    of its payload (which only the notification parser looks at). *)
Record Stanza : Type := {
  stanza_from : option string;
  stanza_id : option string;
  pubsub_events : nat;
  x_conference : option XConference;
  activity_texts : list string
}.

(** ** The chatbox collection *)

Record Session : Type := { connection_status : ROOMSTATUS }.

(** A chatbox model: its attributes, its [session] sub-model and its
    [messages] collection (each message an attribute hash, in insertion
    order). *)
Record ChatBox : Type := {
  attributes : Model;
  session : Session;
  messages : list Model
}.

Definition with_session (s : Session) (m : ChatBox) : ChatBox :=
  {| attributes := attributes m; session := s; messages := messages m |}.

Definition with_messages (ms : list Model) (m : ChatBox) : ChatBox :=
  {| attributes := attributes m; session := session m; messages := ms |}.

(** [m.session.save({ connection_status })] *)
Definition session_save (status : ROOMSTATUS) (m : ChatBox) : ChatBox :=
  with_session {| connection_status := status |} m.

(** A chatbox is referred to by its position in the collection; nothing in
    this module removes a chatbox, so positions are stable identities. *)
Abbreviation ref := nat (only parsing).

(** The positions of the models that satisfy [p], in collection order. *)
Fixpoint positions_from (p : ChatBox -> bool) (i : nat) (l : list ChatBox)
  : list ref :=
  match l with
  | [] => []
  | m :: rest =>
      if p m then i :: positions_from p (S i) rest
      else positions_from p (S i) rest
  end.

(** [collection.filter(p)], as references. *)
Definition collection_filter (p : ChatBox -> bool) (l : list ChatBox)
  : list ref :=
  positions_from p 0 l.

(** [collection.where({ key: v })]: the models whose attribute [key] is
    present and strictly equal to [v]. *)
Definition collection_where (key : string) (v : Value) (l : list ChatBox)
  : list ref :=
  collection_filter
    (fun m => match attributes m !! key with
              | Some a => strict_equals a v
              | None => false
              end) l.

(** [collection.get(id)]: the model registered under that id, if any;
    [get(null)] and [get(undefined)] find nothing. *)
Definition collection_get (id : Value) (l : list ChatBox) : option ref :=
  match id with
  | VNull | VUndefined => None
  | _ => head (collection_where "id" id l)
  end.

(** [messages.findWhere({ msgid })], as a test for presence. *)
Definition findWhere_msgid (msgid : Value) (ms : list Model) : bool :=
  existsb (fun m => match m !! "msgid" with
                    | Some a => strict_equals a msgid
                    | None => false
                    end) ms.

(** ** Effects *)

Inductive Error : Type := Err (message : string).

#[global] Instance Error_eq_dec : EqDecision Error.
Proof. solve_decision. Defined.

Definition error_message (e : Error) : string :=
  match e with Err message => message end.

(** The payload handed to [api.trigger]. *)
Inductive Payload : Type :=
  | NoPayload
  | MessagePayload (stanza : Stanza) (attrs : Model) (chatbox : ref).

(** A promise returned to [autoJoinRooms]' mapper: [Promise.resolve()], or
    the promise of the n-th call of [api.rooms.open]. *)
Inductive Promise : Type :=
  | Resolved
  | Opening (n : nat).

(** What the module does to its collaborators, in the order it does it. *)
Inductive Effect : Type :=
  | LogWarn (message : string)
  | LogError (message : string)
  | Trigger (name : string) (payload : Payload)
  | RoomsGet (jid : Value) (attrs : option Model) (create : bool)
  | RoomsOpen (n : nat) (jid : Value) (attrs : option Model)
  | Settled (n : nat) (fulfilled : bool)
  | Confirm (template : string) (args : list Value)
  | MaybeShow (chatbox : ref) (force : bool)
  | Rejoin (chatbox : ref)
  | Deferred (milestone : string) (stanza : Stanza)
  | UnhandledRejection (e : Error).

Record XMPPStatus : Type := { nickname : Value }.

(** The state the module reads and writes.
    - [settings] is what [api.settings.get] reads;
    - [chatboxes] is [_converse.chatboxes];
    - [converse_session] is [_converse.session];
    - [connection_type] is what [api.connection.isType] compares with;
    - [roster] maps the JIDs of known contacts to their display names;
    - [heap] stores the settings objects that are passed by reference;
    - [opened] counts the calls of [api.rooms.open] made so far;
    - [schedule] is the environment's future: the order in which the
      promises of [api.rooms.open] settle, each fulfilled ([None]) or
      rejected with an error;
    - [confirm_reply] is the user's answer to each [confirm] prompt;
    - [trace] records the effects so far, oldest first. *)
Record World : Type := {
  settings : Model;
  chatboxes : list ChatBox;
  xmppstatus : option XMPPStatus;
  bare_jid : string;
  converse_session : Model;
  connection_type : string;
  roster : gmap string string;
  heap : list Model;
  opened : nat;
  schedule : list (nat * option Error);
  confirm_reply : string -> list Value -> bool;
  trace : list Effect
}.

Definition set_chatboxes (c : list ChatBox) (w : World) : World :=
  {| settings := settings w; chatboxes := c; xmppstatus := xmppstatus w;
     bare_jid := bare_jid w; converse_session := converse_session w;
     connection_type := connection_type w; roster := roster w;
     heap := heap w; opened := opened w; schedule := schedule w;
     confirm_reply := confirm_reply w; trace := trace w |}.

Definition set_heap (h : list Model) (w : World) : World :=
  {| settings := settings w; chatboxes := chatboxes w;
     xmppstatus := xmppstatus w; bare_jid := bare_jid w;
     converse_session := converse_session w;
     connection_type := connection_type w; roster := roster w;
     heap := h; opened := opened w; schedule := schedule w;
     confirm_reply := confirm_reply w; trace := trace w |}.

Definition set_opened (n : nat) (w : World) : World :=
  {| settings := settings w; chatboxes := chatboxes w;
     xmppstatus := xmppstatus w; bare_jid := bare_jid w;
     converse_session := converse_session w;
     connection_type := connection_type w; roster := roster w;
     heap := heap w; opened := n; schedule := schedule w;
     confirm_reply := confirm_reply w; trace := trace w |}.

Definition set_schedule (s : list (nat * option Error)) (w : World)
  : World :=
  {| settings := settings w; chatboxes := chatboxes w;
     xmppstatus := xmppstatus w; bare_jid := bare_jid w;
     converse_session := converse_session w;
     connection_type := connection_type w; roster := roster w;
     heap := heap w; opened := opened w; schedule := s;
     confirm_reply := confirm_reply w; trace := trace w |}.

Definition set_trace (t : list Effect) (w : World) : World :=
  {| settings := settings w; chatboxes := chatboxes w;
     xmppstatus := xmppstatus w; bare_jid := bare_jid w;
     converse_session := converse_session w;
     connection_type := connection_type w; roster := roster w;
     heap := heap w; opened := opened w; schedule := schedule w;
     confirm_reply := confirm_reply w; trace := t |}.

(** How a call ends: it returns, it throws (an [async] function: its
    promise is rejected), or it waits for a promise that never settles. *)
Inductive Outcome (A : Type) : Type :=
  | Ok (a : A)
  | Throw (e : Error)
  | Pending.
Arguments Ok {A} a.
Arguments Throw {A} e.
Arguments Pending {A}.

Definition M (A : Type) : Type := World -> Outcome A * World.

Definition ret {A} (a : A) : M A := fun w => (Ok a, w).

Definition bind {A B} (m : M A) (k : A -> M B) : M B :=
  fun w =>
    match m w with
    | (Ok a, w') => k a w'
    | (Throw e, w') => (Throw e, w')
    | (Pending, w') => (Pending, w')
    end.

Declare Scope js_scope.
Delimit Scope js_scope with js.
Notation "x <- m ;; k" := (bind m (fun x => k))
  (at level 100, m at next level, right associativity) : js_scope.
Notation "m ;; k" := (bind m (fun _ => k))
  (at level 100, right associativity) : js_scope.
#[local] Open Scope js_scope.

Definition throw {A} (e : Error) : M A := fun w => (Throw e, w).

Definition get_world : M World := fun w => (Ok w, w).

Definition emit (e : Effect) : M unit :=
  fun w => (Ok tt, set_trace (trace w ++ [e]) w).

(** [try { body } catch (e) { handler(e) }] *)
Definition try_catch {A} (body : M A) (handler : Error -> M A) : M A :=
  fun w =>
    match body w with
    | (Throw e, w') => handler e w'
    | r => r
    end.

(** Calling an [async] function without awaiting it.  The call itself
    always returns (a promise): an exception raised in the body rejects
    that promise and does not unwind into the caller.  The body is run to
    its end at the point of the call: this is the call taken on its own,
    with no other handler running before its promise settles.  The steps
    of [handleMEPNotification] around its [await], and the orders in which
    two calls can take them, are modelled apart (see [run_steps]). *)
Definition call_async {A} (body : M A) : M unit :=
  fun w =>
    match body w with
    | (Throw e, w') => (Ok tt, set_trace (trace w' ++ [UnhandledRejection e]) w')
    | (_, w') => (Ok tt, w')
    end.

(** [list.forEach(f)] *)
Fixpoint forEach {A} (l : list A) (f : A -> M unit) : M unit :=
  match l with
  | [] => ret tt
  | x :: rest => f x ;; forEach rest f
  end.

(** [list.map(f)] with an effectful [f] *)
Fixpoint mapM {A B} (f : A -> M B) (l : list A) : M (list B) :=
  match l with
  | [] => ret []
  | x :: rest => y <- f x ;; ys <- mapM f rest ;; ret (y :: ys)
  end.

(** [api.settings.get(key)] *)
Definition settings_get (key : string) : M Value :=
  fun w => (Ok (model_get (settings w) key), w).

Definition log_warn (message : string) : M unit := emit (LogWarn message).
Definition log_error (message : string) : M unit := emit (LogError message).

(** [api.trigger(name, payload)] *)
Definition trigger (name : string) (payload : Payload) : M unit :=
  emit (Trigger name payload).

(** A [TypeError] raised by the engine, e.g. for a method call on
    [undefined]. *)
Definition TypeError (what : string) : Error := Err ("TypeError: " +:+ what).

(** ** Collaborators outside the sources *)

(** Helpers that the module imports and that are not among the sources.
    Nothing is assumed about them: every function below takes them as they
    come.
    - [isSameBareJID] is [u.isSameBareJID] of the headless utilities;
    - [getBareJidFromJid], [getNodeFromJid] and [unescapeNode] belong to
      Strophe (they accept and return [null]);
    - [getMEPActivities] is the notification parser of [muc/parsers.js]: it
      decodes the activity records of a stanza into message attributes, or
      throws. *)
Class Externals : Type := {
  isSameBareJID : Value -> Value -> bool;
  getBareJidFromJid : Value -> Value;
  getNodeFromJid : Value -> Value;
  unescapeNode : Value -> Value;
  getMEPActivities : Stanza -> ChatBox -> Error + list Model
}.

(** ** The Room Directory *)

(** Modelled from the spec: the Room that the directory constructs, its
    constructor being outside the sources: one with type=groupchat and
    id=jid into which the caller-supplied settings are merged, in the
    initial session state, which is disconnected, and with an empty log. *)
Definition construct_room (jid : Value) (attrs : option Model) : ChatBox :=
  {| attributes :=
       <["type" := VStr CHATROOMS_TYPE]> (<["id" := jid]> (default ∅ attrs));
     session := {| connection_status := DISCONNECTED |};
     messages := [] |}.

(** Modelled from the spec: [api.rooms.get(jid, attrs, create)] is the Room
    Directory accessor, defined outside the sources.  [get(jid)] is the
    Room or absent; with [create] set it is getOrCreate: it returns the
    existing Room or constructs one.  The call itself is recorded. *)
Definition rooms_get (jid : Value) (attrs : option Model) (create : bool)
  : M (option ref) :=
  emit (RoomsGet jid attrs create) ;;
  w <- get_world ;;
  match collection_get jid (chatboxes w) with
  | Some r => ret (Some r)
  | None =>
      if create then
        (fun w' => (Ok (Some (length (chatboxes w'))),
                    set_chatboxes
                      (chatboxes w' ++ [construct_room jid attrs]) w'))
      else ret None
  end.

(** Modelled from the spec: [room.createMessage(attrs)] is a method of the
    room model, defined outside the sources; it creates a Message, which
    joins the room's insertion-ordered log. *)
Definition createMessage (room : ref) (attrs : Model) : M unit :=
  fun w =>
    (Ok tt,
     set_chatboxes
       (alter (fun m => with_messages (messages m ++ [attrs]) m) room
          (chatboxes w)) w).

(** Modelled from the spec: [api.rooms.open(jid, attrs)] is defined outside
    the sources; it starts an open operation that settles later.  The call
    is recorded with a fresh number and its promise is returned; when and
    how the promise settles is up to the [schedule]. *)
Definition rooms_open (jid : Value) (attrs : option Model) : M Promise :=
  fun w =>
    (Ok (Opening (opened w)),
     set_opened (S (opened w))
       (set_trace (trace w ++ [RoomsOpen (opened w) jid attrs]) w)).

(** The promises of a list that are still to settle. *)
Definition pending_of (ps : list Promise) : list nat :=
  omap (fun p => match p with Opening n => Some n | Resolved => None end) ps.

(** Running the schedule until every pending promise is fulfilled or one
    of them is rejected: the result, the settlements observed on the way
    and what is left of the schedule.  A schedule that ends while promises
    are pending leaves the wait pending for good. *)
Fixpoint settle (sched : list (nat * option Error)) (pending : list nat)
  : Outcome unit * list Effect * list (nat * option Error) :=
  match pending with
  | [] => (Ok tt, [], sched)
  | _ =>
      match sched with
      | [] => (Pending, [], [])
      | (n, None) :: rest =>
          let '(o, es, s) :=
            settle rest (List.filter (fun m => negb (Nat.eqb m n)) pending) in
          (o, Settled n true :: es, s)
      | (n, Some e) :: rest =>
          if existsb (Nat.eqb n) pending
          then (Throw e, [Settled n false], rest)
          else
            let '(o, es, s) := settle rest pending in
            (o, Settled n false :: es, s)
      end
  end.

(** [await Promise.all(ps)] *)
Definition await_all (ps : list Promise) : M unit :=
  fun w =>
    let '(o, es, s) := settle (schedule w) (pending_of ps) in
    (o, set_schedule s (set_trace (trace w ++ es) w)).

(** ** Mutable settings objects *)

(** [{ ...fields }] evaluated into a new object; its address is returned. *)
Definition heap_alloc (fields : Model) : M nat :=
  fun w => (Ok (length (heap w)), set_heap (heap w ++ [fields]) w).

(** [o.key = v] *)
Definition heap_assign (o : nat) (key : string) (v : Value) : M unit :=
  fun w =>
    match heap w !! o with
    | Some fields => (Ok tt, set_heap (<[o := <[key := v]> fields]> (heap w)) w)
    | None => (Throw (TypeError "cannot set a property of undefined"), w)
    end.

(** The fields of [o] at the moment it is handed to a collaborator. *)
Definition heap_read (o : nat) : M Model :=
  fun w =>
    match heap w !! o with
    | Some fields => (Ok fields, w)
    | None => (Throw (TypeError "cannot read a property of undefined"), w)
    end.

(** ** Small accessors *)

(** [api.connection.isType(name)] *)
Definition connection_isType (name : string) : M bool :=
  fun w => (Ok (String.eqb (connection_type w) name), w).

(** [_converse.session.get(key)] *)
Definition converse_session_get (key : string) : M Value :=
  fun w => (Ok (model_get (converse_session w) key), w).

(** [m.session.save({ connection_status })] on the chatbox [m] *)
Definition save_connection_status (m : ref) (status : ROOMSTATUS) : M unit :=
  fun w =>
    (Ok tt, set_chatboxes (alter (session_save status) m (chatboxes w)) w).

(** A reference read back into the model it denotes. *)
Definition deref (m : ref) : M ChatBox :=
  fun w =>
    match chatboxes w !! m with
    | Some c => (Ok c, w)
    | None => (Throw (TypeError "cannot read a property of undefined"), w)
    end.

(** [confirm(text)]: the prompt is shown and the user's answer returned.
    The translation function [__] is external, so the prompt is kept as its
    template and arguments. *)
Definition confirm (template : string) (args : list Value) : M bool :=
  fun w =>
    (Ok (confirm_reply w template args),
     set_trace (trace w ++ [Confirm template args]) w).

(** [contact = _converse.roster.get(from);
     contact ? contact.getDisplayName() : from] *)
Definition contact_display_name (from : Value) : M Value :=
  fun w =>
    (Ok match from with
        | VStr jid =>
            match roster w !! jid with
            | Some name => VStr name
            | None => from
            end
        | _ => from
        end, w).

(** [v.key] on a configuration value *)
Definition get_property (v : Value) (key : string) : Value :=
  match v with
  | VObj fields => model_get fields key
  | _ => VUndefined
  end.

(** The double-quote character, as a string. *)
Definition dquote : string := String (Ascii.ascii_of_nat 34) EmptyString.

Definition invitation_prompt : string :=
  "%1$s has invited you to join a groupchat: %2$s".

Definition invitation_prompt_reason : string :=
  "%1$s has invited you to join a groupchat: %2$s, and left the following reason: "
  +:+ dquote +:+ "%3$s" +:+ dquote.

Definition invalid_muc_criteria : string :=
  "Invalid muc criteria specified for " +:+ dquote +:+ "auto_join_rooms"
  +:+ dquote.

(** The callbacks that this module hands to [connection.addHandler]. *)
Inductive Callback : Type :=
  | DirectInvitationCallback
  | CheckIfMEP
  | GroupchatCallback.

(** One call of [connection.addHandler(callback, ns, name, type)]. *)
Record Registration : Type := {
  reg_callback : Callback;
  reg_ns : option string;
  reg_name : string;
  reg_type : option string
}.

(** ** The functions of [muc/utils.js] *)

Section Utils.
Context `{Externals}.

Definition getAssignableRoles (occupant : Model) : M (list string) :=
  disabled <- settings_get "modtools_disable_assign" ;;
  let disabled :=
    match disabled with
    | VArr elems => elems
    | other => if to_boolean other then map VStr ROLES else []
    end in
  if strict_equals (model_get occupant "role") (VStr "moderator")
  then ret (List.filter (fun r => negb (includes disabled (VStr r))) ROLES)
  else ret [].

Definition registerDirectInvitationHandler : list Registration :=
  [ {| reg_callback := DirectInvitationCallback;
       reg_ns := Some "jabber:x:conference";
       reg_name := "message"; reg_type := None |} ].

Definition disconnectChatRooms : M unit :=
  w <- get_world ;;
  forEach
    (collection_filter
       (fun m => strict_equals (model_get (attributes m) "type")
                   (VStr CHATROOMS_TYPE))
       (chatboxes w))
    (fun m => save_connection_status m DISCONNECTED).

Definition openChatRoom (jid : Value) (settings : nat) : M ref :=
  heap_assign settings "type" (VStr CHATROOMS_TYPE) ;;
  heap_assign settings "id" jid ;;
  attrs <- heap_read settings ;;
  chatbox <- rooms_get jid (Some attrs) true ;;
  match chatbox with
  | Some c => emit (MaybeShow c true) ;; ret c
  | None => throw (TypeError "cannot call maybeShow of null")
  end.

Definition onDirectMUCInvitation (message : Stanza) : M unit :=
  match x_conference message with
  | None => throw (TypeError "cannot call getAttribute of undefined")
  | Some x_el =>
      let from := getBareJidFromJid (of_attr (stanza_from message)) in
      let room_jid := of_attr (x_jid x_el) in
      let reason := of_attr (x_reason x_el) in
      auto_join <- settings_get "auto_join_on_invite" ;;
      result <-
        (if to_boolean auto_join then ret true
         else
           contact <- contact_display_name from ;;
           if negb (to_boolean reason)
           then confirm invitation_prompt [contact; room_jid]
           else confirm invitation_prompt_reason
                  [contact; room_jid; reason]) ;;
      if result then
        settings <- heap_alloc {[ "password" := of_attr (x_password x_el) ]} ;;
        chatroom <- openChatRoom room_jid settings ;;
        room <- deref chatroom ;;
        if ROOMSTATUS_eqb (connection_status (session room)) DISCONNECTED
        then
          w <- get_world ;;
          match collection_get room_jid (chatboxes w) with
          | Some c => emit (Rejoin c)
          | None => throw (TypeError "cannot call rejoin of undefined")
          end
        else ret tt
      else ret tt
  end.

Definition getDefaultMUCNickname : M Value :=
  w <- get_world ;;
  match xmppstatus w with
  | None =>
      throw (Err "Can't call _converse.getDefaultMUCNickname before the statusInitialized has been fired.")
  | Some status =>
      let nick := nickname status in
      if to_boolean nick then ret nick
      else
        from_jid <- settings_get "muc_nickname_from_jid" ;;
        if to_boolean from_jid
        then ret (unescapeNode (getNodeFromJid (VStr (bare_jid w))))
        else ret VUndefined
  end.

(** The function that [autoJoinRooms] maps over the configured entries. *)
Definition autoJoinRooms_entry (muc : Value) : M Promise :=
  if is_string muc then
    w <- get_world ;;
    if negb (Nat.eqb (length (collection_where "jid" muc (chatboxes w))) 0)
    then ret Resolved
    else rooms_open muc None
  else if isObject muc then
    rooms_open (get_property muc "jid") (Some (spread muc))
  else
    (log_error invalid_muc_criteria ;; ret Resolved).

Definition autoJoinRooms : M unit :=
  rooms <- settings_get "auto_join_rooms" ;;
  match rooms with
  | VArr entries =>
      promises <- mapM autoJoinRooms_entry entries ;;
      await_all promises ;;
      trigger "roomsAutoJoined" NoPayload
  | _ => throw (TypeError "map is not a function")
  end.

Definition handleMEPNotification (stanza : Stanza) : M unit :=
  let from := of_attr (stanza_from stanza) in
  w <- get_world ;;
  if isSameBareJID from (VStr (bare_jid w)) then ret tt
  else
    room <- rooms_get from None false ;;
    match room with
    | None =>
        log_warn ("Received a MEP message for a non-existent room: "
                  +:+ attr_string (stanza_from stanza))
    | Some room =>
        let msgid := of_attr (stanza_id stanza) in
        model <- deref room ;;
        if findWhere_msgid msgid (messages model) then ret tt
        else
          match getMEPActivities stanza model with
          | inl e => throw e
          | inr activities =>
              forEach activities
                (fun attrs =>
                   createMessage room attrs ;;
                   trigger "message" (MessagePayload stanza attrs room))
          end
    end.

Definition checkIfMEP (message : Stanza) : M bool :=
  try_catch
    (if negb (Nat.eqb (pubsub_events message) 0)
     then call_async (handleMEPNotification message)
     else ret tt)
    (fun e => log_error (error_message e)) ;;
  ret true.

Definition registerPEPPushHandler : list Registration :=
  [ {| reg_callback := CheckIfMEP; reg_ns := None;
       reg_name := "message"; reg_type := Some "headline" |};
    {| reg_callback := CheckIfMEP; reg_ns := None;
       reg_name := "message"; reg_type := Some "groupchat" |} ].

(** The listener that [onStatusInitialized] adds for the unload event. *)
Definition onStatusInitialized_listener : M unit :=
  using_websocket <- connection_isType "websocket" ;;
  enable_smacks <- settings_get "enable_smacks" ;;
  smacks_stream_id <- converse_session_get "smacks_stream_id" ;;
  if using_websocket
     && (negb (to_boolean enable_smacks)
         || negb (to_boolean smacks_stream_id))
  then disconnectChatRooms
  else ret tt.

(** The handler that [registerDirectInvitationHandler] adds. *)
Definition directInvitationHandler (message : Stanza) : M bool :=
  call_async (onDirectMUCInvitation message) ;;
  ret true.

(** The handler that [onBeforeResourceBinding] adds: when no chatbox is
    known for the sender yet, the stanza is put aside until the
    chatboxes have been fetched. *)
Definition groupchatHandler (stanza : Stanza) : M bool :=
  let muc_jid := getBareJidFromJid (of_attr (stanza_from stanza)) in
  w <- get_world ;;
  (match collection_get muc_jid (chatboxes w) with
   | None => emit (Deferred "chatBoxesFetched" stanza)
   | Some _ => ret tt
   end) ;;
  ret true.

Definition onBeforeResourceBinding : list Registration :=
  [ {| reg_callback := GroupchatCallback; reg_ns := None;
       reg_name := "message"; reg_type := Some "groupchat" |} ].

(** Running a registered callback on a stanza. *)
Definition run_callback (c : Callback) (stanza : Stanza) : M bool :=
  match c with
  | DirectInvitationCallback => directInvitationHandler stanza
  | CheckIfMEP => checkIfMEP stanza
  | GroupchatCallback => groupchatHandler stanza
  end.

End Utils.

(** ** A concrete environment for examples *)

(** The part of [s] before the first occurrence of [c]. *)
Fixpoint before_char (c : Ascii.ascii) (s : string) : string :=
  match s with
  | EmptyString => EmptyString
  | String a rest =>
      if Ascii.eqb a c then EmptyString else String a (before_char c rest)
  end.

Definition contains_char (c : Ascii.ascii) (s : string) : bool :=
  negb (String.eqb (before_char c s) s).

Definition slash : Ascii.ascii := Ascii.ascii_of_nat 47.
Definition at_sign : Ascii.ascii := Ascii.ascii_of_nat 64.

(** Strophe's [getBareJidFromJid]: the JID up to its resource. *)
Definition sample_getBareJidFromJid (jid : Value) : Value :=
  match jid with
  | VStr s => VStr (before_char slash s)
  | _ => VNull
  end.

(** Strophe's [getNodeFromJid]: the part before the at-sign, if any. *)
Definition sample_getNodeFromJid (jid : Value) : Value :=
  match jid with
  | VStr s => if contains_char at_sign s then VStr (before_char at_sign s)
              else VNull
  | _ => VNull
  end.

(** Modelled from the spec: the notification parser decodes zero or more
    activity records from the payload; here one record per activity text,
    each carrying the sender and the id of the stanza it came in. *)
Definition sample_getMEPActivities (stanza : Stanza) (room : ChatBox)
  : Error + list Model :=
  inr (map (fun text =>
              <["from" := of_attr (stanza_from stanza)]>
                (<["msgid" := of_attr (stanza_id stanza)]>
                   (<["message" := VStr text]> {[ "type" := VStr "mep" ]})))
         (activity_texts stanza)).

(** A parser that fails on every payload. *)
Definition failing_getMEPActivities (stanza : Stanza) (room : ChatBox)
  : Error + list Model :=
  inl (Err "malformed activity").

Definition sample_externals : Externals :=
  {| isSameBareJID a b :=
       is_string a && is_string b
       && strict_equals (sample_getBareJidFromJid a)
            (sample_getBareJidFromJid b);
     getBareJidFromJid := sample_getBareJidFromJid;
     getNodeFromJid := sample_getNodeFromJid;
     unescapeNode := fun node => node;
     getMEPActivities := sample_getMEPActivities |}.

Definition failing_externals : Externals :=
  {| isSameBareJID := @isSameBareJID sample_externals;
     getBareJidFromJid := sample_getBareJidFromJid;
     getNodeFromJid := sample_getNodeFromJid;
     unescapeNode := fun node => node;
     getMEPActivities := failing_getMEPActivities |}.

(** A chatbox with the given id (also its JID), type and session state. *)
Definition sample_chatbox (jid type : string) (status : ROOMSTATUS)
  : ChatBox :=
  {| attributes :=
       <["id" := VStr jid]> (<["jid" := VStr jid]> {[ "type" := VStr type ]});
     session := {| connection_status := status |};
     messages := [] |}.

(** A world with the given settings and chatboxes for the user
    romeo@montague.lit, whose status is initialised, on a websocket
    connection without a resumption token, and who declines prompts. *)
Definition sample_world (config : Model) (boxes : list ChatBox) : World :=
  {| settings := config;
     chatboxes := boxes;
     xmppstatus := Some {| nickname := VStr "romeo" |};
     bare_jid := "romeo@montague.lit";
     converse_session := ∅;
     connection_type := "websocket";
     roster := {[ "juliet@capulet.lit" := "Juliet" ]};
     heap := [];
     opened := 0;
     schedule := [];
     confirm_reply := fun _ _ => false;
     trace := [] |}.

Definition set_connection_type (t : string) (w : World) : World :=
  {| settings := settings w; chatboxes := chatboxes w;
     xmppstatus := xmppstatus w; bare_jid := bare_jid w;
     converse_session := converse_session w;
     connection_type := t; roster := roster w;
     heap := heap w; opened := opened w; schedule := schedule w;
     confirm_reply := confirm_reply w; trace := trace w |}.

Definition set_xmppstatus (s : option XMPPStatus) (w : World) : World :=
  {| settings := settings w; chatboxes := chatboxes w;
     xmppstatus := s; bare_jid := bare_jid w;
     converse_session := converse_session w;
     connection_type := connection_type w; roster := roster w;
     heap := heap w; opened := opened w; schedule := schedule w;
     confirm_reply := confirm_reply w; trace := trace w |}.

Definition set_confirm_reply (f : string -> list Value -> bool) (w : World)
  : World :=
  {| settings := settings w; chatboxes := chatboxes w;
     xmppstatus := xmppstatus w; bare_jid := bare_jid w;
     converse_session := converse_session w;
     connection_type := connection_type w; roster := roster w;
     heap := heap w; opened := opened w; schedule := schedule w;
     confirm_reply := f; trace := trace w |}.

(** A room notification from [room] with the given id and activities. *)
Definition mep_stanza (room id : string) (texts : list string) : Stanza :=
  {| stanza_from := Some room; stanza_id := Some id; pubsub_events := 1;
     x_conference := None; activity_texts := texts |}.

(** A direct invitation from [from] to [room]. *)
Definition invitation (from room : string) (reason password : option string)
  : Stanza :=
  {| stanza_from := Some from; stanza_id := None; pubsub_events := 0;
     x_conference := Some {| x_jid := Some room; x_reason := reason;
                             x_password := password |};
     activity_texts := [] |}.


(** ** Vocabulary of the statements *)

(** [m.get('type') === _converse.CHATROOMS_TYPE] *)
Definition is_groupchat (m : ChatBox) : bool :=
  strict_equals (model_get (attributes m) "type") (VStr CHATROOMS_TYPE).

(** The "message" events announced for the activity records of a stanza. *)
Definition message_events (stanza : Stanza) (room : nat)
    (activities : list Model) : list Effect :=
  map (fun attrs => Trigger "message" (MessagePayload stanza attrs room))
    activities.

(** A chatbox with further messages at the end of its log. *)
Definition append_messages (activities : list Model) (m : ChatBox) : ChatBox :=
  with_messages (messages m ++ activities) m.

(** The settings object as [openChatRoom] leaves it: whatever [fields]
    held under "type" and "id" is overwritten. *)
Definition room_settings (jid : Value) (fields : Model) : Model :=
  <["id" := jid]> (<["type" := VStr CHATROOMS_TYPE]> fields).

(** The prompt that [onDirectMUCInvitation] puts to the user: the inviter
    by display name when the roster knows the JID and by bare JID
    otherwise, the room, and the reason when one is given. *)
Definition invitation_dialog `{Externals} (message : Stanza)
    (x_el : XConference) (w : World) : string * list Value :=
  let from := getBareJidFromJid (of_attr (stanza_from message)) in
  let contact :=
    match from with
    | VStr jid => match roster w !! jid with
                  | Some name => VStr name
                  | None => from
                  end
    | _ => from
    end in
  if to_boolean (of_attr (x_reason x_el))
  then (invitation_prompt_reason,
        [contact; of_attr (x_jid x_el); of_attr (x_reason x_el)])
  else (invitation_prompt, [contact; of_attr (x_jid x_el)]).

(** The promise [n] is fulfilled by a schedule: it settles, and not by a
    rejection. *)
Definition fulfilled_in (sched : list (nat * option Error)) (n : nat)
  : Prop :=
  (n, None) ∈ sched /\ forall e, (n, Some e) ∉ sched.

(** The same, as a test. *)
Definition fulfils (sched : list (nat * option Error)) (n : nat) : bool :=
  existsb (fun s => Nat.eqb s.1 n && bool_decide (s.2 = None)) sched
  && forallb (fun s => negb (Nat.eqb s.1 n) || bool_decide (s.2 = None)) sched.

Definition is_settlement (e : Effect) : Prop :=
  exists n fulfilled, e = Settled n fulfilled.

Definition is_trigger (e : Effect) : bool :=
  match e with Trigger _ _ => true | _ => false end.

(** ** Example scenarios *)

(** One connected groupchat, room@muc.lit, with an empty log. *)
Definition room_world : World :=
  sample_world ∅ [sample_chatbox "room@muc.lit" "chatroom" CONNECTED].


(** A notification from that room that carries one activity record. *)
Definition single_notice : Stanza :=
  mep_stanza "room@muc.lit" "id1" ["romeo sighs"].

(** A notification from a room that the directory does not know. *)
Definition stray_notice : Stanza :=
  mep_stanza "nowhere@muc.lit" "id2" ["romeo sighs"].

(** The auto-join list of the specification's example. *)
Definition room2_settings : Model :=
  <["jid" := VStr "room2@conf.example"]> {[ "nick" := VStr "x" ]}.

Definition example_entries : list Value :=
  [VStr "room1@conf.example"; VObj room2_settings; VNum 42].

Definition example_config : Model :=
  {[ "auto_join_rooms" := VArr example_entries ]}.

(** Nothing is open yet, and both rooms open in time, the second first. *)
Definition fresh_autojoin_world : World :=
  set_schedule [(1, None); (0, None)] (sample_world example_config []).

(** room1 is open already; the one room still to open does open. *)
Definition known_room1_world : World :=
  set_schedule [(0, None)]
    (sample_world example_config
       [sample_chatbox "room1@conf.example" "chatroom" CONNECTED]).

(** A groupchat and a one-to-one chat, both connected. *)
Definition mixed_world : World :=
  sample_world ∅
    [sample_chatbox "room@muc.lit" "chatroom" CONNECTED;
     sample_chatbox "juliet@capulet.lit" "chatbox" CONNECTED].

(** The same over BOSH instead of a websocket. *)
Definition bosh_world : World := set_connection_type "bosh" mixed_world.


Definition moderator : Model := {[ "role" := VStr "moderator" ]}.

(** The user's status has not been initialised yet. *)
Definition early_world : World := set_xmppstatus None room_world.

(** The user says yes to every prompt. *)
Definition willing_world : World :=
  set_confirm_reply (fun _ _ => true) room_world.

(** Juliet invites the user to a room that is not open yet. *)
Definition juliet_invites : Stanza :=
  invitation "juliet@capulet.lit/balcony" "orchard@muc.lit"
    (Some "come") (Some "secret").

Definition juliet_x : XConference :=
  {| x_jid := Some "orchard@muc.lit"; x_reason := Some "come";
     x_password := Some "secret" |}.

(** A caller holds a settings object that asks for a one-to-one chat. *)
Definition caller_settings : Model :=
  <["type" := VStr "chatbox"]> {[ "nick" := VStr "romeo" ]}.

Definition caller_world : World := set_heap [caller_settings] room_world.

(** Normalising the records of effects and worlds in a goal. *)
Ltac world_eq :=
  unfold set_trace, set_chatboxes, set_heap, set_opened, set_schedule;
  simpl; rewrite <- ?app_assoc; simpl; try reflexivity.

(** ** Further functions of [muc/utils.js] *)

Section TearDown.
(** [safeSave(model, attributes)] of the headless utilities is not among
    the sources: it is taken as it comes, as the session it leaves
    behind. *)
Variable safeSave : Session -> Session -> Session.

Definition onBeforeTearDown : M unit :=
  w <- get_world ;;
  forEach (collection_where "type" (VStr CHATROOMS_TYPE) (chatboxes w))
    (fun muc =>
       fun w' =>
         (Ok tt,
          set_chatboxes
            (alter
               (fun m =>
                  with_session
                    (safeSave (session m)
                       {| connection_status := DISCONNECTED |}) m)
               muc (chatboxes w')) w')).

End TearDown.

Section InfoMessages.
(** [String.prototype.includes] belongs to the engine: whether the string
    contains the search value, once that is converted to a string. *)
Variable string_includes : string -> Value -> bool.

Definition isInfoVisible (code : Value) : M bool :=
  info_messages <- settings_get "muc_show_info_messages" ;;
  match info_messages with
  | VArr elems => if includes elems code then ret true else ret false
  | VStr s => if string_includes s code then ret true else ret false
  | VUndefined | VNull =>
      throw (TypeError "cannot read a property of undefined")
  | _ => throw (TypeError "includes is not a function")
  end.

End InfoMessages.

Section Routing.
(** [u.isValidMUCJID] is not among the sources.  Modelled from the spec:
    [api.waitUntil(name)] waits until the milestone of that name fires;
    [fires] tells of each milestone whether it ever does. *)
Variable isValidMUCJID : string -> bool.
Variable fires : string -> bool.

Definition waitUntil (name : string) : M unit :=
  fun w => if fires name then (Ok tt, w) else (Pending, w).

Definition invalid_jid_warning (jid : string) : string :=
  "invalid jid " +:+ dquote +:+ jid +:+ dquote +:+ " provided in url fragment".

Definition routeToRoom (jid : string) : M unit :=
  if negb (isValidMUCJID jid) then log_warn (invalid_jid_warning jid)
  else
    waitUntil "roomsAutoJoined" ;;
    allow_bookmarks <- settings_get "allow_bookmarks" ;;
    (if to_boolean allow_bookmarks then waitUntil "bookmarksInitialized"
     else ret tt) ;;
    rooms_open (VStr jid) None ;;
    ret tt.

End Routing.

Section Replay.
Context `{Externals}.


End Replay.

(** ** Further vocabulary of the statements *)

(** An auto-join entry that leads to no call of [api.rooms.open]: a JID
    that has a chatbox already, or a value that is neither a string nor an
    object. *)
Definition opens_nothing (boxes : list ChatBox) (muc : Value) : bool :=
  if is_string muc
  then negb (Nat.eqb (length (collection_where "jid" muc boxes)) 0)
  else negb (isObject muc).

(** The entries that are neither strings nor objects. *)
Definition invalid_entries (entries : list Value) : list Value :=
  List.filter (fun muc => negb (is_string muc) && negb (isObject muc)) entries.

(** All registrations that the module makes with the connection. *)
Definition all_registrations : list Registration :=
  registerDirectInvitationHandler ++ registerPEPPushHandler
  ++ onBeforeResourceBinding.

(** A [safeSave] that stores the attributes it is given. *)
Definition saving_safeSave (s attrs : Session) : Session := attrs.


(** The user's own notification, reflected by the server. *)
Definition own_notice : Stanza :=
  mep_stanza "romeo@montague.lit/orchard" "id3" ["romeo sighs"].

(** SMACKS is enabled and the session holds a resumption token. *)
Definition resumable_world : World :=
  {| settings := {[ "enable_smacks" := VBool true ]};
     chatboxes := chatboxes mixed_world;
     xmppstatus := xmppstatus mixed_world;
     bare_jid := bare_jid mixed_world;
     converse_session := {[ "smacks_stream_id" := VStr "stream-1" ]};
     connection_type := "websocket";
     roster := roster mixed_world;
     heap := [];
     opened := 0;
     schedule := [];
     confirm_reply := fun _ _ => false;
     trace := [] |}.

(** No nickname is set, and none is to be taken from the JID. *)
Definition anonymous_world : World :=
  set_xmppstatus (Some {| nickname := VStr EmptyString |}) room_world.

(** Info messages 110 and 307 are shown. *)
Definition info_world : World :=
  sample_world {[ "muc_show_info_messages" := VArr [VStr "110"; VStr "307"] ]}
    [].

(** Only URL fragments that contain an at-sign are room JIDs. *)
Definition sample_isValidMUCJID (jid : string) : bool :=
  contains_char at_sign jid.

(** Every entry of the list is known or malformed. *)
Definition quiet_config : Model :=
  {[ "auto_join_rooms" := VArr [VStr "room1@conf.example"; VNum 42; VNull] ]}.

Definition quiet_world : World :=
  sample_world quiet_config
    [sample_chatbox "room1@conf.example" "chatroom" CONNECTED].


(** ** The notification handler around its [await] *)

(** [handleMEPNotification] is an [async] function with one [await], on
    the promise of [api.rooms.get(from)]; [checkIfMEP] does not await the
    call.  A call thus runs in two steps: up to the [await] when the
    stanza is delivered, and from the [await] to the end at some later
    turn of the event loop, with other handlers possibly in between.
    From the [await] on the body has no further [await]: it runs to its
    end in one piece. *)

(** A call of [handleMEPNotification] that is suspended at its [await]:
    the stanza it was called with, and the value that the promise of
    [api.rooms.get] resolves to. *)
Inductive Task : Type :=
  | AwaitingRoom (stanza : Stanza) (room : option nat).


(** The synchronous start of an [async] call that may suspend: an
    exception raised before the first [await] rejects the promise as well,
    and leaves nothing to resume. *)
Definition start_async (body : M (option Task)) : M (option Task) :=
  fun w =>
    match body w with
    | (Throw e, w') =>
        (Ok None, set_trace (trace w' ++ [UnhandledRejection e]) w')
    | (Pending, w') => (Ok None, w')
    | r => r
    end.

Section Suspension.
Context `{Externals}.

(** [handleMEPNotification], up to its [await]. *)
Definition handleMEPNotification_start (stanza : Stanza) : M (option Task) :=
  let from := of_attr (stanza_from stanza) in
  w <- get_world ;;
  if isSameBareJID from (VStr (bare_jid w)) then ret None
  else
    room <- rooms_get from None false ;;
    ret (Some (AwaitingRoom stanza room)).

(** [handleMEPNotification], from its [await] on. *)
Definition handleMEPNotification_resume (task : Task) : M unit :=
  match task with
  | AwaitingRoom stanza room =>
      match room with
      | None =>
          log_warn ("Received a MEP message for a non-existent room: "
                    +:+ attr_string (stanza_from stanza))
      | Some room =>
          let msgid := of_attr (stanza_id stanza) in
          model <- deref room ;;
          if findWhere_msgid msgid (messages model) then ret tt
          else
            match getMEPActivities stanza model with
            | inl e => throw e
            | inr activities =>
                forEach activities
                  (fun attrs =>
                     createMessage room attrs ;;
                     trigger "message" (MessagePayload stanza attrs room))
            end
      end
  end.

(** [checkIfMEP] as the connection sees it: it returns [true] at once
    and leaves the call it has started, if any, suspended. *)
Definition checkIfMEP_deliver (message : Stanza) : M (bool * option Task) :=
  task <- try_catch
            (if negb (Nat.eqb (pubsub_events message) 0)
             then start_async (handleMEPNotification_start message)
             else ret None)
            (fun e => log_error (error_message e) ;; ret None) ;;
  ret (true, task).

(** A suspended call taken up again; what it throws rejects its promise. *)
Definition resume_task (task : option Task) : M unit :=
  match task with
  | Some t => call_async (handleMEPNotification_resume t)
  | None => ret tt
  end.


End Suspension.

(** The lookups of the directory are set apart from the other effects. *)
Definition is_lookup (e : Effect) : bool :=
  match e with
  | RoomsGet _ _ _ => true
  | _ => false
  end.


(** * Properties *)

(** ** Values *)

Lemma strict_equals_VStr (a : Value) (s : string) :
  strict_equals a (VStr s) = true <-> a = VStr s.
Proof.
  destruct a; simpl; split; try discriminate; try congruence.
  - intros E. apply String.eqb_eq in E. by subst.
  - intros [= ->]. apply String.eqb_refl.
Qed.


Lemma includes_VStr (elems : list Value) (s : string) :
  includes elems (VStr s) = true <-> VStr s ∈ elems.
Proof.
  unfold includes. rewrite existsb_exists. split.
  - intros (e & Hin & He). apply strict_equals_VStr in He. subst.
    by apply list_elem_of_In.
  - intros Hin. exists (VStr s). split; [by apply list_elem_of_In|].
    by apply strict_equals_VStr.
Qed.

(** ** The world *)

Lemma set_chatboxes_twice (c1 c2 : list ChatBox) (w : World) :
  set_chatboxes c2 (set_chatboxes c1 w) = set_chatboxes c2 w.
Proof. reflexivity. Qed.

Lemma set_chatboxes_same (w : World) : set_chatboxes (chatboxes w) w = w.
Proof. by destruct w. Qed.

Lemma set_trace_same (w : World) : set_trace (trace w) w = w.
Proof. by destruct w. Qed.

(** ** Role assignment *)


(** ** The default nickname *)

Section Nickname.
Context `{Externals}.

(** C8. Before the user's status is initialised, [getDefaultMUCNickname]
    throws to its caller, and the world is left as it was. *)
Theorem getDefaultMUCNickname_before_status (w : World) :
  xmppstatus w = None ->
  getDefaultMUCNickname w
  = (Throw (Err "Can't call _converse.getDefaultMUCNickname before the statusInitialized has been fired."),
     w).
Proof.
  intros Hs. unfold getDefaultMUCNickname, bind, get_world.
  by rewrite Hs.
Qed.

(** Once the status is there, the call returns and changes nothing. *)
Lemma getDefaultMUCNickname_after_status (w : World) (s : XMPPStatus) :
  xmppstatus w = Some s ->
  exists nick, getDefaultMUCNickname w = (Ok nick, w).
Proof.
  intros Hs. unfold getDefaultMUCNickname, bind, get_world, settings_get, ret.
  rewrite Hs. destruct (to_boolean (nickname s)); [by eexists|].
  destruct (to_boolean _); by eexists.
Qed.

End Nickname.

(** ** Collections *)

Lemma positions_from_spec (p : ChatBox -> bool) (l : list ChatBox)
    (k i : nat) :
  i ∈ positions_from p k l <->
  exists m, k <= i /\ l !! (i - k) = Some m /\ p m = true.
Proof.
  revert k. induction l as [|m l IH]; intros k; simpl.
  - split; [by intros ?%elem_of_nil|]. by intros (? & _ & ? & _).
  - assert (i ∈ positions_from p (S k) l <->
            exists m', k < i /\ l !! (i - S k) = Some m' /\ p m' = true)
      as IH' by apply IH.
    destruct (p m) eqn:Hp; [rewrite elem_of_cons|]; rewrite IH'; split.
    + intros [->|(m' & Hk & Hl & Hm)].
      * exists m. by rewrite Nat.sub_diag.
      * exists m'. split; [lia|]. split; [|done].
        by replace (i - k) with (S (i - S k)) by lia.
    + intros (m' & Hk & Hl & Hm).
      destruct (decide (i = k)) as [->|Hne]; [by left|right].
      exists m'. split; [lia|]. split; [|done].
      by replace (i - k) with (S (i - S k)) in Hl by lia.
    + intros (m' & Hk & Hl & Hm). exists m'. split; [lia|]. split; [|done].
      by replace (i - k) with (S (i - S k)) by lia.
    + intros (m' & Hk & Hl & Hm).
      destruct (decide (i = k)) as [->|Hne].
      * rewrite Nat.sub_diag in Hl. simpl in Hl. congruence.
      * exists m'. split; [lia|]. split; [|done].
        by replace (i - k) with (S (i - S k)) in Hl by lia.
Qed.

(** [collection.filter(p)] refers to exactly the models that satisfy [p]. *)
Lemma collection_filter_spec (p : ChatBox -> bool) (l : list ChatBox)
    (i : nat) :
  i ∈ collection_filter p l <-> exists m, l !! i = Some m /\ p m = true.
Proof.
  unfold collection_filter. rewrite positions_from_spec.
  setoid_rewrite Nat.sub_0_r. split.
  - intros (m & _ & Hm & Hp). by exists m.
  - intros (m & Hm & Hp). exists m. split; [lia|done].
Qed.

(** Saving one session attribute on each of a list of chatboxes, one after
    the other, never fails and touches nothing but the collection. *)
Lemma forEach_save_connection_status (status : ROOMSTATUS) (rs : list nat)
    (w : World) :
  forEach rs (fun m => save_connection_status m status) w
  = (Ok tt,
     set_chatboxes
       (foldl (fun cs r => alter (session_save status) r cs) (chatboxes w) rs)
       w).
Proof.
  revert w. induction rs as [|r rs IH]; intros w; simpl.
  - unfold ret. by rewrite set_chatboxes_same.
  - unfold bind, save_connection_status at 1. by rewrite IH.
Qed.

Lemma foldl_alter_length (f : ChatBox -> ChatBox) (rs : list nat)
    (l : list ChatBox) :
  length (foldl (fun cs r => alter f r cs) l rs) = length l.
Proof.
  revert l. induction rs as [|r rs IH]; intros l; simpl; [done|].
  by rewrite IH, length_alter.
Qed.

Lemma foldl_alter_not_elem (f : ChatBox -> ChatBox) (rs : list nat)
    (l : list ChatBox) (i : nat) :
  i ∉ rs -> foldl (fun cs r => alter f r cs) l rs !! i = l !! i.
Proof.
  revert l. induction rs as [|r rs IH]; intros l Hi; simpl; [done|].
  apply not_elem_of_cons in Hi as [Hne Hi].
  rewrite IH by done. by apply list_lookup_alter_ne.
Qed.

Lemma foldl_alter_once (f : ChatBox -> ChatBox) (rs : list nat)
    (l : list ChatBox) (i : nat) :
  NoDup rs -> i ∈ rs ->
  foldl (fun cs r => alter f r cs) l rs !! i = f <$> l !! i.
Proof.
  revert l. induction rs as [|r rs IH]; intros l Hnd Hi; simpl.
  - by apply elem_of_nil in Hi.
  - apply NoDup_cons in Hnd as [Hr Hnd].
    apply elem_of_cons in Hi as [->|Hi].
    + rewrite foldl_alter_not_elem by done. apply list_lookup_alter_eq.
    + rewrite IH by done. rewrite list_lookup_alter_ne; [done|].
      intros ->. done.
Qed.

Lemma positions_from_NoDup (p : ChatBox -> bool) (l : list ChatBox)
    (k : nat) :
  NoDup (positions_from p k l).
Proof.
  revert k. induction l as [|m l IH]; intros k; simpl; [constructor|].
  destruct (p m); [|done]. apply NoDup_cons. split; [|done].
  rewrite positions_from_spec. intros (? & ? & _). lia.
Qed.

(** ** Page unload *)


(** Every groupchat is marked as disconnected, and nothing else happens. *)
Lemma disconnectChatRooms_spec (w : World) :
  exists boxes,
    disconnectChatRooms w = (Ok tt, set_chatboxes boxes w)
    /\ length boxes = length (chatboxes w)
    /\ forall i m, chatboxes w !! i = Some m ->
         boxes !! i
         = Some (if is_groupchat m then session_save DISCONNECTED m else m).
Proof.
  eexists. unfold disconnectChatRooms, bind, get_world.
  rewrite forEach_save_connection_status. split; [reflexivity|].
  split; [apply foldl_alter_length|].
  intros i m Hm. fold is_groupchat.
  destruct (is_groupchat m) eqn:Hg.
  - rewrite foldl_alter_once, Hm; [done|apply positions_from_NoDup|].
    apply collection_filter_spec. eauto.
  - rewrite foldl_alter_not_elem; [done|].
    rewrite collection_filter_spec. intros (m' & Hm' & Hg').
    congruence.
Qed.

(** C2, as the code has it.  When the page unloads on a websocket
    connection whose session cannot be resumed (resumption is disabled by
    configuration, or no resumption token is present), every chatbox of
    type groupchat has its session's connection status set to
    disconnected, with its attributes and messages untouched; chatboxes of
    any other type, and the rest of the world, are left as they were. *)
Theorem unload_disconnects_groupchats (w : World) :
  connection_type w = "websocket" ->
  to_boolean (model_get (settings w) "enable_smacks") = false
  \/ to_boolean (model_get (converse_session w) "smacks_stream_id") = false ->
  exists boxes,
    onStatusInitialized_listener w = (Ok tt, set_chatboxes boxes w)
    /\ length boxes = length (chatboxes w)
    /\ forall i m, chatboxes w !! i = Some m ->
         (model_get (attributes m) "type" = VStr CHATROOMS_TYPE ->
          boxes !! i
          = Some {| attributes := attributes m;
                    session := {| connection_status := DISCONNECTED |};
                    messages := messages m |})
         /\ (model_get (attributes m) "type" ≠ VStr CHATROOMS_TYPE ->
             boxes !! i = Some m).
Proof.
  intros Hws Hres.
  destruct (disconnectChatRooms_spec w) as (boxes & Hrun & Hlen & Hboxes).
  exists boxes. split; [|split; [done|]].
  - unfold onStatusInitialized_listener, bind, connection_isType,
      settings_get, converse_session_get.
    rewrite Hws. simpl String.eqb.
    destruct Hres as [-> | ->]; simpl; [done|].
    by rewrite orb_true_r.
  - intros i m Hm. specialize (Hboxes i m Hm). unfold is_groupchat in Hboxes.
    split; intros Hty.
    + apply strict_equals_VStr in Hty. by rewrite Hty in Hboxes.
    + destruct (strict_equals _ _) eqn:E; [|done].
      by apply strict_equals_VStr in E.
Qed.

(** On any other connection, or with a session that can be resumed, the
    unload listener does nothing at all. *)
Lemma unload_otherwise_nothing (w : World) :
  connection_type w ≠ "websocket"
  \/ (to_boolean (model_get (settings w) "enable_smacks") = true
      /\ to_boolean (model_get (converse_session w) "smacks_stream_id") = true) ->
  onStatusInitialized_listener w = (Ok tt, w).
Proof.
  intros Hcase.
  unfold onStatusInitialized_listener, bind, connection_isType,
    settings_get, converse_session_get.
  destruct Hcase as [Hne | [-> ->]].
  - apply String.eqb_neq in Hne. by rewrite Hne.
  - simpl. by rewrite andb_false_r.
Qed.

(** ** Room notifications *)





Lemma collection_get_Some (id : Value) (l : list ChatBox) (r : nat) :
  collection_get id l = Some r ->
  exists m a, l !! r = Some m /\ attributes m !! "id" = Some a
              /\ strict_equals a id = true.
Proof.
  intros Hget.
  assert (head (collection_where "id" id l) = Some r) as Hhead
    by (destruct id; done).
  apply head_Some_elem_of in Hhead.
  apply collection_filter_spec in Hhead as (m & Hm & Hp).
  exists m. destruct (attributes m !! "id") as [a|]; [|done]. by exists a.
Qed.

Lemma append_messages_twice (a1 a2 : list Model) (m : ChatBox) :
  append_messages a2 (append_messages a1 m) = append_messages (a1 ++ a2) m.
Proof. unfold append_messages, with_messages. simpl. by rewrite app_assoc. Qed.

Lemma append_messages_nil (m : ChatBox) : append_messages [] m = m.
Proof.
  unfold append_messages, with_messages. rewrite app_nil_r. by destruct m.
Qed.

(** Creating a message and announcing it, once per activity record. *)
Lemma forEach_createMessage (stanza : Stanza) (room : nat)
    (activities : list Model) (w : World) :
  forEach activities
    (fun attrs =>
       createMessage room attrs ;;
       trigger "message" (MessagePayload stanza attrs room)) w
  = (Ok tt,
     set_trace (trace w ++ message_events stanza room activities)
       (set_chatboxes
          (alter (append_messages activities) room (chatboxes w)) w)).
Proof.
  revert w. induction activities as [|attrs rest IH]; intros w.
  - simpl. unfold ret. f_equal. unfold set_trace, set_chatboxes. simpl.
    rewrite app_nil_r.
    rewrite list_alter_id by apply append_messages_nil. by destruct w.
  - cbn [forEach]. unfold bind at 1.
    unfold bind at 1, createMessage at 1, trigger at 1, emit at 1.
    rewrite IH. f_equal. unfold set_trace, set_chatboxes. simpl.
    rewrite <- app_assoc. simpl.
    rewrite list_alter_alter_eq. f_equal.
    apply list_alter_ext; [|done]. intros m _. simpl.
    apply (append_messages_twice [attrs] rest m).
Qed.

Section MEP.
Context `{Externals}.

Lemma handleMEPNotification_self (stanza : Stanza) (w : World) :
  isSameBareJID (of_attr (stanza_from stanza)) (VStr (bare_jid w)) = true ->
  handleMEPNotification stanza w = (Ok tt, w).
Proof.
  intros Hself. unfold handleMEPNotification, bind, get_world.
  by rewrite Hself.
Qed.

Lemma handleMEPNotification_unknown_room (stanza : Stanza) (w : World) :
  isSameBareJID (of_attr (stanza_from stanza)) (VStr (bare_jid w)) = false ->
  collection_get (of_attr (stanza_from stanza)) (chatboxes w) = None ->
  handleMEPNotification stanza w
  = (Ok tt,
     set_trace
       (trace w ++
        [RoomsGet (of_attr (stanza_from stanza)) None false;
         LogWarn ("Received a MEP message for a non-existent room: "
                  +:+ attr_string (stanza_from stanza))]) w).
Proof.
  intros Hself Hget.
  unfold handleMEPNotification, bind, get_world, rooms_get, bind, emit,
    get_world.
  rewrite Hself. simpl. rewrite Hget. simpl. unfold ret, log_warn, emit.
  f_equal. world_eq.
Qed.

Lemma handleMEPNotification_duplicate (stanza : Stanza) (w : World)
    (room : nat) (model : ChatBox) :
  isSameBareJID (of_attr (stanza_from stanza)) (VStr (bare_jid w)) = false ->
  collection_get (of_attr (stanza_from stanza)) (chatboxes w) = Some room ->
  chatboxes w !! room = Some model ->
  findWhere_msgid (of_attr (stanza_id stanza)) (messages model) = true ->
  handleMEPNotification stanza w
  = (Ok tt,
     set_trace
       (trace w ++ [RoomsGet (of_attr (stanza_from stanza)) None false]) w).
Proof.
  intros Hself Hget Hroom Hdup.
  unfold handleMEPNotification, bind, get_world, rooms_get, bind, emit,
    get_world.
  rewrite Hself. simpl. rewrite Hget. simpl. unfold ret, deref. simpl.
  rewrite Hroom, Hdup. done.
Qed.

Lemma handleMEPNotification_fresh (stanza : Stanza) (w : World)
    (room : nat) (model : ChatBox) (activities : list Model) :
  isSameBareJID (of_attr (stanza_from stanza)) (VStr (bare_jid w)) = false ->
  collection_get (of_attr (stanza_from stanza)) (chatboxes w) = Some room ->
  chatboxes w !! room = Some model ->
  findWhere_msgid (of_attr (stanza_id stanza)) (messages model) = false ->
  getMEPActivities stanza model = inr activities ->
  handleMEPNotification stanza w
  = (Ok tt,
     set_trace
       (trace w ++
        RoomsGet (of_attr (stanza_from stanza)) None false
        :: message_events stanza room activities)
       (set_chatboxes
          (alter (append_messages activities) room (chatboxes w)) w)).
Proof.
  intros Hself Hget Hroom Hdup Hdecode.
  unfold handleMEPNotification, bind, get_world, rooms_get, bind, emit,
    get_world.
  rewrite Hself. cbn -[forEach]. rewrite Hget. unfold ret, deref.
  cbn -[forEach]. rewrite Hroom, Hdup, Hdecode.
  etrans; [apply (forEach_createMessage stanza room activities)|].
  f_equal. world_eq.
Qed.

Lemma handleMEPNotification_decode_failure (stanza : Stanza) (w : World)
    (room : nat) (model : ChatBox) (e : Error) :
  isSameBareJID (of_attr (stanza_from stanza)) (VStr (bare_jid w)) = false ->
  collection_get (of_attr (stanza_from stanza)) (chatboxes w) = Some room ->
  chatboxes w !! room = Some model ->
  findWhere_msgid (of_attr (stanza_id stanza)) (messages model) = false ->
  getMEPActivities stanza model = inl e ->
  handleMEPNotification stanza w
  = (Throw e,
     set_trace
       (trace w ++ [RoomsGet (of_attr (stanza_from stanza)) None false]) w).
Proof.
  intros Hself Hget Hroom Hdup Hdecode.
  unfold handleMEPNotification, bind, get_world, rooms_get, bind, emit,
    get_world.
  rewrite Hself. simpl. rewrite Hget. simpl. unfold ret, deref. simpl.
  rewrite Hroom, Hdup, Hdecode. done.
Qed.

End MEP.




Section Ingestion.
Context `{Externals}.

(** The handler that is registered with the connection never logs a
    failure of the notification it starts: the promise is rejected and
    nobody handles the rejection. *)
Lemma checkIfMEP_failure_unhandled (stanza : Stanza) (w w' : World)
    (e : Error) :
  pubsub_events stanza ≠ 0 ->
  handleMEPNotification stanza w = (Throw e, w') ->
  checkIfMEP stanza w
  = (Ok true, set_trace (trace w' ++ [UnhandledRejection e]) w').
Proof.
  intros Hev Hrun. unfold checkIfMEP, bind, try_catch, call_async, ret.
  apply Nat.eqb_neq in Hev. rewrite Hev. simpl. by rewrite Hrun.
Qed.

Lemma checkIfMEP_success (stanza : Stanza) (w w' : World) :
  pubsub_events stanza ≠ 0 ->
  handleMEPNotification stanza w = (Ok tt, w') ->
  checkIfMEP stanza w = (Ok true, w').
Proof.
  intros Hev Hrun. unfold checkIfMEP, bind, try_catch, call_async, ret.
  apply Nat.eqb_neq in Hev. rewrite Hev. simpl. by rewrite Hrun.
Qed.

(** Every callback that this module registers returns [true], whatever
    the stanza and whatever happens while it is processed. *)
Lemma callbacks_return_true (c : Callback) (stanza : Stanza) (w : World) :
  exists w', run_callback c stanza w = (Ok true, w').
Proof.
  destruct c; simpl.
  - unfold directInvitationHandler, bind, call_async, ret.
    destruct (onDirectMUCInvitation stanza w) as [[ | | ] ?]; by eexists.
  - unfold checkIfMEP, bind, try_catch, call_async, ret.
    destruct (negb _); [|by eexists].
    destruct (handleMEPNotification stanza w) as [[ | | ] ?]; by eexists.
  - unfold groupchatHandler, bind, get_world, ret, emit.
    destruct (collection_get _ _); by eexists.
Qed.

(** C7, as the code has it.  The sender of a notification is looked up
    in the directory without creating anything.  When the lookup finds no
    room, a warning is logged and the stanza is dropped: no message and no
    room is created, no event is announced, and the handler returns
    [true] to the connection with no failure left behind. *)
Theorem mep_for_unknown_room_dropped (stanza : Stanza) (w : World) :
  pubsub_events stanza ≠ 0 ->
  isSameBareJID (of_attr (stanza_from stanza)) (VStr (bare_jid w)) = false ->
  collection_get (of_attr (stanza_from stanza)) (chatboxes w) = None ->
  let w' :=
    set_trace
      (trace w ++
       [RoomsGet (of_attr (stanza_from stanza)) None false;
        LogWarn ("Received a MEP message for a non-existent room: "
                 +:+ attr_string (stanza_from stanza))]) w in
  handleMEPNotification stanza w = (Ok tt, w')
  /\ checkIfMEP stanza w = (Ok true, w')
  /\ chatboxes w' = chatboxes w.
Proof.
  intros Hev Hself Hget w'.
  assert (handleMEPNotification stanza w = (Ok tt, w')) as Hrun
    by by apply handleMEPNotification_unknown_room.
  split; [done|]. split; [|done]. by apply checkIfMEP_success.
Qed.

End Ingestion.

(** ** Opening a room *)

Lemma positions_from_app (p : ChatBox -> bool) (k : nat)
    (l1 l2 : list ChatBox) :
  positions_from p k (l1 ++ l2)
  = positions_from p k l1 ++ positions_from p (k + length l1) l2.
Proof.
  revert k. induction l1 as [|m l1 IH]; intros k; simpl.
  - by rewrite Nat.add_0_r.
  - rewrite IH. replace (S k + length l1) with (k + S (length l1)) by lia.
    by destruct (p m).
Qed.

Lemma collection_get_new_room (j : string) (attrs : option Model)
    (l : list ChatBox) :
  collection_get (VStr j) l = None ->
  collection_get (VStr j) (l ++ [construct_room (VStr j) attrs])
  = Some (length l).
Proof.
  unfold collection_get, collection_where, collection_filter.
  intros Hnone. apply head_None in Hnone.
  rewrite positions_from_app, Hnone. simpl.
  rewrite lookup_insert_ne, lookup_insert_eq by done. simpl.
  by rewrite String.eqb_refl.
Qed.



(** What [openChatRoom] does, step by step. *)
Lemma openChatRoom_run (jid : Value) (settings : nat) (fields : Model)
    (w : World) :
  heap w !! settings = Some fields ->
  let attrs := room_settings jid fields in
  let w1 :=
    set_trace (trace w ++ [RoomsGet jid (Some attrs) true])
      (set_heap (<[settings := attrs]> (heap w)) w) in
  openChatRoom jid settings w
  = match collection_get jid (chatboxes w) with
    | Some c => (Ok c, set_trace (trace w1 ++ [MaybeShow c true]) w1)
    | None =>
        (Ok (length (chatboxes w)),
         set_trace (trace w1 ++ [MaybeShow (length (chatboxes w)) true])
           (set_chatboxes
              (chatboxes w ++ [construct_room jid (Some attrs)]) w1))
    end.
Proof.
  intros Hfields attrs w1.
  assert (settings < length (heap w)) as Hlt by by eapply lookup_lt_Some.
  unfold openChatRoom, bind, heap_assign, heap_read, rooms_get, bind, emit,
    get_world.
  rewrite Hfields. simpl.
  rewrite list_lookup_insert_eq by done. simpl.
  rewrite list_insert_insert_eq.
  rewrite list_lookup_insert_eq by done. simpl.
  fold (room_settings jid fields). fold attrs.
  destruct (collection_get jid (chatboxes w)) as [c|]; reflexivity.
Qed.

(** ** Direct invitations *)

Section Invitation.
Context `{Externals}.

(** The decision taken on an invitation, and the prompt it takes. *)
Lemma invitation_decision (message : Stanza) (x_el : XConference)
    (w : World) (k : bool -> M unit) :
  let auto_join :=
    to_boolean (model_get (settings w) "auto_join_on_invite") in
  let dialog := invitation_dialog message x_el w in
  bind
    (if auto_join then ret true
     else
       contact <- contact_display_name
                    (getBareJidFromJid (of_attr (stanza_from message))) ;;
       if negb (to_boolean (of_attr (x_reason x_el)))
       then confirm invitation_prompt [contact; of_attr (x_jid x_el)]
       else confirm invitation_prompt_reason
              [contact; of_attr (x_jid x_el); of_attr (x_reason x_el)])
    k w
  = k (auto_join || confirm_reply w dialog.1 dialog.2)
      (set_trace
         (trace w ++
          (if auto_join then [] else [Confirm dialog.1 dialog.2])) w).
Proof.
  intros auto_join dialog. subst dialog. unfold invitation_dialog.
  unfold bind, ret, contact_display_name, confirm.
  destruct auto_join; simpl.
  - by rewrite app_nil_r, set_trace_same.
  - by destruct (to_boolean (of_attr (x_reason x_el))).
Qed.

(** C5.  An invitation is accepted when [auto_join_on_invite] is set, in
    which case no prompt is shown, or when the user confirms the prompt.
    On acceptance the room is requested from the directory, to be created
    if needed, with the password of the invitation among the settings;
    it is shown; and if its session is disconnected, [rejoin] is called
    on it.  On decline nothing but the prompt happens: the chatboxes and
    the store are as before. *)
Theorem onDirectMUCInvitation_decision (message : Stanza)
    (x_el : XConference) (j : string) (w : World) :
  x_conference message = Some x_el ->
  x_jid x_el = Some j ->
  let auto_join :=
    to_boolean (model_get (settings w) "auto_join_on_invite") in
  let dialog := invitation_dialog message x_el w in
  let prompt := if auto_join then [] else [Confirm dialog.1 dialog.2] in
  let attrs :=
    room_settings (VStr j) {[ "password" := of_attr (x_password x_el) ]} in
  (auto_join || confirm_reply w dialog.1 dialog.2 = false ->
     onDirectMUCInvitation message w
     = (Ok tt, set_trace (trace w ++ prompt) w))
  /\ (auto_join || confirm_reply w dialog.1 dialog.2 = true ->
      exists c room w',
        onDirectMUCInvitation message w = (Ok tt, w')
        /\ heap w' = heap w ++ [attrs]
        /\ chatboxes w' !! c = Some room
        /\ model_get (attributes room) "id" = VStr j
        /\ trace w'
           = trace w ++ prompt
             ++ [RoomsGet (VStr j) (Some attrs) true; MaybeShow c true]
             ++ (if ROOMSTATUS_eqb (connection_status (session room))
                      DISCONNECTED
                 then [Rejoin c] else [])
        /\ (collection_get (VStr j) (chatboxes w) = None ->
            chatboxes w' = chatboxes w ++ [room]
            /\ attributes room = attrs
            /\ connection_status (session room) = DISCONNECTED)
        /\ (is_Some (collection_get (VStr j) (chatboxes w)) ->
            chatboxes w' = chatboxes w)).
Proof.
  intros Hx Hj auto_join dialog prompt attrs.
  set (accepted := auto_join || confirm_reply w dialog.1 dialog.2).
  set (password := {[ "password" := of_attr (x_password x_el) ]} : Model).
  assert (onDirectMUCInvitation message w
          = (if accepted then
               settings <- heap_alloc password ;;
               chatroom <- openChatRoom (VStr j) settings ;;
               room <- deref chatroom ;;
               if ROOMSTATUS_eqb (connection_status (session room))
                    DISCONNECTED
               then
                 w0 <- get_world ;;
                 match collection_get (VStr j) (chatboxes w0) with
                 | Some c => emit (Rejoin c)
                 | None =>
                     throw (TypeError "cannot call rejoin of undefined")
                 end
               else ret tt
             else ret tt) (set_trace (trace w ++ prompt) w)) as ->.
  { unfold onDirectMUCInvitation. rewrite Hx.
    unfold bind at 1, settings_get at 1.
    rewrite invitation_decision. by rewrite Hj. }
  split; intros ->; [reflexivity|].
  unfold bind at 1, heap_alloc at 1. unfold bind at 1.
  erewrite (openChatRoom_run (VStr j) _ password).
  2:{ simpl. by rewrite lookup_app_r, Nat.sub_diag. }
  cbn [chatboxes set_heap set_trace heap trace].
  assert (<[length (heap w) := room_settings (VStr j) password]>
            (heap w ++ [password]) = heap w ++ [attrs]) as ->.
  { rewrite insert_app_r_alt, Nat.sub_diag by done. done. }
  fold attrs.
  destruct (collection_get (VStr j) (chatboxes w)) as [c|] eqn:Hget.
  - destruct (collection_get_Some _ _ _ Hget) as (m & a & Hm & Ha & Heq).
    apply strict_equals_VStr in Heq. subst a.
    exists c, m. unfold bind, deref, get_world, emit, ret.
    cbn [chatboxes set_heap set_trace heap trace]. rewrite Hm.
    destruct (ROOMSTATUS_eqb _ _) eqn:Hst;
      cbn [chatboxes set_heap set_trace heap trace]; rewrite ?Hget;
      (eexists; split; [reflexivity|]);
      cbn [chatboxes set_heap set_trace heap trace];
      rewrite <- !app_assoc; repeat split; try done;
      by unfold model_get; rewrite Ha.
  - exists (length (chatboxes w)), (construct_room (VStr j) (Some attrs)).
    unfold bind, deref, get_world, emit, ret.
    cbn [chatboxes set_heap set_trace set_chatboxes heap trace].
    rewrite lookup_app_r, Nat.sub_diag by done.
    cbn [lookup list_lookup construct_room session connection_status
           ROOMSTATUS_eqb].
    cbn [chatboxes set_heap set_trace set_chatboxes heap trace].
    rewrite collection_get_new_room by done.
    eexists; split; [reflexivity|].
    cbn [chatboxes set_heap set_trace set_chatboxes heap trace].
    rewrite <- !app_assoc. repeat split; try done.
    by rewrite lookup_app_r, Nat.sub_diag.
Qed.

End Invitation.

(** ** Auto-join *)

Lemma fulfils_fulfilled_in (sched : list (nat * option Error)) (n : nat) :
  fulfils sched n = true -> fulfilled_in sched n.
Proof.
  unfold fulfils. intros [Hex Hall]%andb_true_iff. split.
  - apply existsb_exists in Hex as ([m o] & Hin & Hm). simpl in Hm.
    apply andb_true_iff in Hm as [Hm Ho].
    apply Nat.eqb_eq in Hm. apply bool_decide_eq_true in Ho. subst.
    by apply list_elem_of_In.
  - intros e Hin. rewrite forallb_forall in Hall.
    apply list_elem_of_In, Hall in Hin. simpl in Hin.
    by rewrite Nat.eqb_refl in Hin.
Qed.

Lemma fulfils_later (n m : nat) (o : option Error)
    (rest : list (nat * option Error)) :
  fulfilled_in ((m, o) :: rest) n -> (m, o) ≠ (n, None) ->
  fulfilled_in rest n.
Proof.
  intros [Hin Hno] Hne. split.
  - apply elem_of_cons in Hin as [Heq|Hin]; [congruence|done].
  - intros e He. apply (Hno e). by right.
Qed.

(** When the schedule fulfils every pending promise, [Promise.all] is
    fulfilled, after each of them has settled; what is observed meanwhile
    are settlements only. *)
Lemma settle_fulfilled (sched : list (nat * option Error))
    (pending : list nat) :
  Forall (fulfilled_in sched) pending ->
  exists es rest,
    settle sched pending = (Ok tt, es, rest)
    /\ Forall is_settlement es
    /\ forall n, n ∈ pending -> Settled n true ∈ es.
Proof.
  revert pending. induction sched as [|[m o] sched IH]; intros pending Hall.
  - destruct pending as [|n pending].
    + exists [], []. split; [done|]. split; [constructor|].
      by intros n ?%elem_of_nil.
    + apply Forall_cons in Hall as [[Hin _] _]. by apply elem_of_nil in Hin.
  - destruct pending as [|n pending].
    + exists [], ((m, o) :: sched). split; [done|]. split; [constructor|].
      by intros n ?%elem_of_nil.
    + remember (n :: pending) as ps eqn:Hps.
      assert (settle ((m, o) :: sched) ps
              = match o with
                | None =>
                    let '(r, es, s) :=
                      settle sched
                        (List.filter (fun k => negb (Nat.eqb k m)) ps) in
                    (r, Settled m true :: es, s)
                | Some e =>
                    if existsb (Nat.eqb m) ps
                    then (Throw e, [Settled m false], sched)
                    else
                      let '(r, es, s) := settle sched ps in
                      (r, Settled m false :: es, s)
                end) as -> by (subst ps; reflexivity).
      clear Hps n pending. destruct o as [e|].
      * assert (existsb (Nat.eqb m) ps = false) as ->.
        { apply not_true_iff_false. rewrite existsb_exists.
          intros (k & Hk & Heq). apply Nat.eqb_eq in Heq. subst k.
          apply list_elem_of_In in Hk.
          rewrite Forall_forall in Hall. destruct (Hall m Hk) as [_ Hno].
          apply (Hno e). by left. }
        destruct (IH ps) as (es & rest & Hrun & Hes & Hin).
        { eapply Forall_impl; [exact Hall|]. intros k Hk.
          eapply fulfils_later; [exact Hk|]. congruence. }
        rewrite Hrun. exists (Settled m false :: es), rest.
        split; [done|]. split.
        -- constructor; [by eexists _, _|done].
        -- intros k Hk. right. by apply Hin.
      * destruct (IH (List.filter (fun k => negb (Nat.eqb k m)) ps))
          as (es & rest & Hrun & Hes & Hin).
        { apply Forall_forall. intros k Hk.
          apply list_elem_of_In, filter_In in Hk as [Hk Hne].
          apply negb_true_iff, Nat.eqb_neq in Hne.
          rewrite Forall_forall in Hall.
          eapply fulfils_later; [apply Hall; by apply list_elem_of_In|].
          congruence. }
        rewrite Hrun. exists (Settled m true :: es), rest.
        split; [done|]. split.
        -- constructor; [by eexists _, _|done].
        -- intros k Hk. destruct (decide (k = m)) as [->|Hne]; [by left|].
           right. apply Hin. apply list_elem_of_In, filter_In.
           split; [by apply list_elem_of_In|].
           by apply negb_true_iff, Nat.eqb_neq.
Qed.

Lemma settlements_no_trigger (es : list Effect) :
  Forall is_settlement es -> List.filter is_trigger es = [].
Proof.
  induction 1 as [|e es (n & ok & ->) _ IH]; [done|]. simpl. exact IH.
Qed.

(** What the mapper does with an entry of each shape. *)
Lemma autoJoinRooms_entry_known (jid : string) (w : World) :
  collection_where "jid" (VStr jid) (chatboxes w) ≠ [] ->
  autoJoinRooms_entry (VStr jid) w = (Ok Resolved, w).
Proof.
  intros Hknown. unfold autoJoinRooms_entry, bind, get_world, ret. simpl.
  by destruct (collection_where _ _ _).
Qed.

Lemma autoJoinRooms_entry_unknown (jid : string) (w : World) :
  collection_where "jid" (VStr jid) (chatboxes w) = [] ->
  autoJoinRooms_entry (VStr jid) w
  = (Ok (Opening (opened w)),
     set_opened (S (opened w))
       (set_trace (trace w ++ [RoomsOpen (opened w) (VStr jid) None]) w)).
Proof.
  intros Hnew. unfold autoJoinRooms_entry, bind, get_world, ret. simpl.
  by rewrite Hnew.
Qed.

Lemma autoJoinRooms_entry_object (muc : Value) (w : World) :
  isObject muc = true ->
  autoJoinRooms_entry muc w
  = (Ok (Opening (opened w)),
     set_opened (S (opened w))
       (set_trace
          (trace w ++
           [RoomsOpen (opened w) (get_property muc "jid") (Some (spread muc))])
          w)).
Proof. intros Hobj. by destruct muc. Qed.

Lemma autoJoinRooms_entry_invalid (muc : Value) (w : World) :
  is_string muc = false -> isObject muc = false ->
  autoJoinRooms_entry muc w
  = (Ok Resolved, set_trace (trace w ++ [LogError invalid_muc_criteria]) w).
Proof. intros Hs Ho. by destruct muc. Qed.

Lemma settle_only_settlements (sched : list (nat * option Error))
    (pending : list nat) :
  Forall is_settlement (settle sched pending).1.2.
Proof.
  revert pending. induction sched as [|[m o] sched IH]; intros pending.
  - destruct pending; constructor.
  - destruct pending as [|n pending]; [constructor|].
    remember (n :: pending) as ps. simpl. rewrite Heqps at 1.
    destruct o as [e|].
    + destruct (existsb (Nat.eqb m) ps).
      * simpl. constructor; [by eexists _, _|constructor].
      * specialize (IH ps). destruct (settle sched ps) as [[r es] s].
        simpl in *. constructor; [by eexists _, _|done].
    + specialize (IH (List.filter (fun k => negb (Nat.eqb k m)) ps)).
      destruct (settle sched _) as [[r es] s].
      simpl in *. constructor; [by eexists _, _|done].
Qed.



(** The whole of [autoJoinRooms], given how the mapping and the wait go. *)
Lemma autoJoinRooms_run (entries : list Value) (w w1 : World)
    (ps : list Promise) (o : Outcome unit) (es : list Effect)
    (s : list (nat * option Error)) :
  model_get (settings w) "auto_join_rooms" = VArr entries ->
  mapM autoJoinRooms_entry entries w = (Ok ps, w1) ->
  settle (schedule w1) (pending_of ps) = (o, es, s) ->
  autoJoinRooms w
  = match o with
    | Ok _ =>
        (Ok tt,
         set_trace (trace w1 ++ es ++ [Trigger "roomsAutoJoined" NoPayload])
           (set_schedule s w1))
    | Throw e => (Throw e, set_trace (trace w1 ++ es) (set_schedule s w1))
    | Pending => (Pending, set_trace (trace w1 ++ es) (set_schedule s w1))
    end.
Proof.
  intros Hcfg Hmap Hsettle.
  unfold autoJoinRooms, bind, settings_get. rewrite Hcfg, Hmap.
  unfold await_all. rewrite Hsettle.
  destruct o as [[]| |]; try reflexivity.
  unfold trigger, emit. f_equal. world_eq.
Qed.


(** C4, as the code has it.  With the auto-join list
    ['room1@conf.example', {jid: 'room2@conf.example', nick: 'x'}, 42],
    [autoJoinRooms] calls [api.rooms.open] for room1, unless a chatbox with
    that JID exists already, and for room2 with a copy of its settings;
    it logs an error for 42 and goes on.  Once every call it issued has
    been fulfilled, it fires roomsAutoJoined, exactly once and after these
    calls have settled.  The chatboxes themselves are only read. *)
Theorem autoJoinRooms_example (w : World) :
  model_get (settings w) "auto_join_rooms" = VArr example_entries ->
  let known :=
    collection_where "jid" (VStr "room1@conf.example") (chatboxes w) in
  let n := opened w in
  let room2 :=
    RoomsOpen (match known with [] => S n | _ => n end)
      (VStr "room2@conf.example") (Some room2_settings) in
  let calls :=
    match known with
    | [] => [RoomsOpen n (VStr "room1@conf.example") None; room2]
    | _ => [room2]
    end in
  let issued := match known with [] => [n; S n] | _ => [n] end in
  forallb (fulfils (schedule w)) issued = true ->
  exists settlements w',
    autoJoinRooms w = (Ok tt, w')
    /\ trace w'
       = trace w ++ calls ++ [LogError invalid_muc_criteria] ++ settlements
         ++ [Trigger "roomsAutoJoined" NoPayload]
    /\ Forall is_settlement settlements
    /\ (forall k, k ∈ issued -> Settled k true ∈ settlements)
    /\ List.filter is_trigger
         (calls ++ [LogError invalid_muc_criteria] ++ settlements
          ++ [Trigger "roomsAutoJoined" NoPayload])
       = [Trigger "roomsAutoJoined" NoPayload]
    /\ chatboxes w' = chatboxes w.
Proof.
  intros Hcfg known n room2 calls issued Hsched.
  assert (exists ps w1,
            mapM autoJoinRooms_entry example_entries w = (Ok ps, w1)
            /\ pending_of ps = issued
            /\ trace w1 = trace w ++ calls ++ [LogError invalid_muc_criteria]
            /\ schedule w1 = schedule w
            /\ chatboxes w1 = chatboxes w)
    as (ps & w1 & Hmap & Hpending & Ht1 & Hs1 & Hc1).
  { unfold example_entries. cbn [mapM]. unfold bind at 1.
    subst calls issued room2. destruct known as [|r rs] eqn:Hknown.
    - rewrite autoJoinRooms_entry_unknown by done.
      unfold bind at 1. unfold bind at 1.
      rewrite autoJoinRooms_entry_object by done.
      unfold bind at 1. unfold bind at 1.
      rewrite autoJoinRooms_entry_invalid by done.
      unfold bind, ret. eexists _, _. split; [reflexivity|].
      cbn [trace schedule chatboxes opened set_opened set_trace].
      rewrite <- !app_assoc. done.
    - rewrite autoJoinRooms_entry_known by (unfold known in Hknown; congruence).
      unfold bind at 1. unfold bind at 1.
      rewrite autoJoinRooms_entry_object by done.
      unfold bind at 1. unfold bind at 1.
      rewrite autoJoinRooms_entry_invalid by done.
      unfold bind, ret. eexists _, _. split; [reflexivity|].
      cbn [trace schedule chatboxes opened set_opened set_trace].
      rewrite <- !app_assoc. done. }
  destruct (settle_fulfilled (schedule w1) issued)
    as (es & rest & Hsettle & Hes & Hin).
  { rewrite Hs1. apply Forall_forall. intros k Hk.
    apply fulfils_fulfilled_in. rewrite forallb_forall in Hsched.
    by apply Hsched, list_elem_of_In. }
  rewrite <- Hpending in Hsettle.
  exists es. eexists. split; [|split; [|split; [|split; [|split]]]].
  - exact (autoJoinRooms_run _ _ _ _ _ _ _ Hcfg Hmap Hsettle).
  - simpl. rewrite Ht1. by rewrite <- !app_assoc.
  - done.
  - done.
  - rewrite !List.filter_app, (settlements_no_trigger es Hes).
    subst calls room2. by destruct known.
  - done.
Qed.

(** When one of the calls is rejected before all are fulfilled, or the
    calls never all settle, roomsAutoJoined is not fired. *)
Lemma autoJoinRooms_without_event (entries : list Value) (w w1 : World)
    (ps : list Promise) (o : Outcome unit) (es : list Effect)
    (s : list (nat * option Error)) :
  model_get (settings w) "auto_join_rooms" = VArr entries ->
  mapM autoJoinRooms_entry entries w = (Ok ps, w1) ->
  settle (schedule w1) (pending_of ps) = (o, es, s) ->
  o ≠ Ok tt ->
  exists w',
    autoJoinRooms w = (o, w')
    /\ trace w' = trace w1 ++ es
    /\ List.filter is_trigger es = [].
Proof.
  intros Hcfg Hmap Hsettle Hfail.
  pose proof (settle_only_settlements (schedule w1) (pending_of ps)) as Hes.
  rewrite Hsettle in Hes. simpl in Hes.
  rewrite (autoJoinRooms_run _ _ _ _ _ _ _ Hcfg Hmap Hsettle).
  destruct o as [[]| |]; [done| |];
    (eexists; split; [reflexivity|]; split; [done|];
     by apply settlements_no_trigger).
Qed.

(** * The statements at work on the example scenarios *)

(** ** Role assignment *)


(** ** The default nickname *)

Lemma getDefaultMUCNickname_before_status_witness :
  xmppstatus early_world = None
  /\ exists e,
       @getDefaultMUCNickname sample_externals early_world
       = (Throw e, early_world).
Proof.
  split; [reflexivity|]. eexists.
  apply (@getDefaultMUCNickname_before_status sample_externals early_world).
  reflexivity.
Defined.

(** ** Page unload *)

(** C2, as stated, fails over BOSH: the session cannot be resumed (it has
    no resumption token, and resumption is not enabled), the first chatbox
    is a groupchat, and yet the unload listener leaves it connected. *)
Lemma unload_on_bosh_keeps_rooms_connected :
  to_boolean (model_get (converse_session bosh_world) "smacks_stream_id")
  = false
  /\ to_boolean (model_get (settings bosh_world) "enable_smacks") = false
  /\ is_groupchat <$> chatboxes bosh_world !! 0 = Some true
  /\ onStatusInitialized_listener bosh_world = (Ok tt, bosh_world)
  /\ connection_status ∘ session <$> chatboxes bosh_world !! 0
     = Some CONNECTED.
Proof. repeat split; reflexivity. Qed.

Lemma unload_disconnects_groupchats_witness :
  connection_type mixed_world = "websocket"
  /\ to_boolean (model_get (settings mixed_world) "enable_smacks") = false
  /\ exists boxes,
       onStatusInitialized_listener mixed_world
       = (Ok tt, set_chatboxes boxes mixed_world)
       /\ boxes !! 0
          = Some (sample_chatbox "room@muc.lit" "chatroom" DISCONNECTED)
       /\ boxes !! 1
          = Some (sample_chatbox "juliet@capulet.lit" "chatbox" CONNECTED).
Proof.
  split; [reflexivity|]. split; [reflexivity|].
  destruct (unload_disconnects_groupchats mixed_world eq_refl
              (or_introl eq_refl)) as (boxes & Hrun & _ & Hboxes).
  exists boxes. split; [exact Hrun|]. split.
  - destruct (Hboxes 0 (sample_chatbox "room@muc.lit" "chatroom" CONNECTED)
                eq_refl) as [Hroom _].
    exact (Hroom eq_refl).
  - destruct (Hboxes 1
                (sample_chatbox "juliet@capulet.lit" "chatbox" CONNECTED)
                eq_refl) as [_ Hchat].
    apply Hchat. vm_compute. discriminate.
Defined.

(** ** Room notifications *)

(** C6, at its failing input: a notification that the parser cannot
    decode.  The handler does return [true], but its [catch] clause is
    never entered: nothing is logged, and the rejected promise of
    [handleMEPNotification] is left unhandled. *)
Theorem checkIfMEP_decode_failure_unlogged :
  @checkIfMEP failing_externals single_notice room_world
  = (Ok true,
     set_trace
       [RoomsGet (VStr "room@muc.lit") None false;
        UnhandledRejection (Err "malformed activity")] room_world).
Proof. reflexivity. Qed.

(** C7, as stated, fails in that nothing is created for an unknown
    sender: the directory is asked without [create], and it still has no
    room under that JID afterwards. *)
Lemma unknown_room_is_not_created :
  collection_get (VStr "nowhere@muc.lit") (chatboxes room_world) = None
  /\ trace (snd (@handleMEPNotification sample_externals stray_notice
                   room_world))
     = [RoomsGet (VStr "nowhere@muc.lit") None false;
        LogWarn "Received a MEP message for a non-existent room: nowhere@muc.lit"]
  /\ collection_get (VStr "nowhere@muc.lit")
       (chatboxes (snd (@handleMEPNotification sample_externals stray_notice
                          room_world)))
     = None.
Proof. repeat split; reflexivity. Qed.

Lemma mep_for_unknown_room_dropped_witness :
  pubsub_events stray_notice ≠ 0
  /\ @isSameBareJID sample_externals (of_attr (stanza_from stray_notice))
       (VStr (bare_jid room_world)) = false
  /\ collection_get (of_attr (stanza_from stray_notice))
       (chatboxes room_world) = None
  /\ exists w',
       @checkIfMEP sample_externals stray_notice room_world = (Ok true, w')
       /\ chatboxes w' = chatboxes room_world.
Proof.
  split; [discriminate|]. split; [reflexivity|]. split; [reflexivity|].
  destruct (@mep_for_unknown_room_dropped sample_externals stray_notice
              room_world) as (_ & Hrun & Hboxes);
    [discriminate|reflexivity|reflexivity|].
  eexists. split; [exact Hrun|exact Hboxes].
Defined.

(** ** Auto-join *)

(** C4, as stated, fails when room1 is open already: the only call to
    [api.rooms.open] is the one for room2. *)
Lemma known_room1_is_not_opened :
  model_get (settings known_room1_world) "auto_join_rooms"
  = VArr example_entries
  /\ fst (autoJoinRooms known_room1_world) = Ok tt
  /\ trace (snd (autoJoinRooms known_room1_world))
     = [RoomsOpen 0 (VStr "room2@conf.example") (Some room2_settings);
        LogError invalid_muc_criteria;
        Settled 0 true;
        Trigger "roomsAutoJoined" NoPayload].
Proof. repeat split; reflexivity. Qed.

Lemma autoJoinRooms_example_witness :
  model_get (settings fresh_autojoin_world) "auto_join_rooms"
  = VArr example_entries
  /\ forallb (fulfils (schedule fresh_autojoin_world)) [0; 1] = true
  /\ exists settlements w',
       autoJoinRooms fresh_autojoin_world = (Ok tt, w')
       /\ trace w'
          = [RoomsOpen 0 (VStr "room1@conf.example") None;
             RoomsOpen 1 (VStr "room2@conf.example") (Some room2_settings);
             LogError invalid_muc_criteria]
            ++ settlements ++ [Trigger "roomsAutoJoined" NoPayload]
       /\ Settled 0 true ∈ settlements
       /\ Settled 1 true ∈ settlements.
Proof.
  split; [reflexivity|]. split; [reflexivity|].
  destruct (autoJoinRooms_example fresh_autojoin_world eq_refl eq_refl)
    as (settlements & w' & Hrun & Htrace & _ & Hsettled & _).
  exists settlements, w'. split; [exact Hrun|]. split; [exact Htrace|].
  split; apply Hsettled; repeat constructor.
Defined.


(** ** Opening a room and accepting an invitation *)

Lemma onDirectMUCInvitation_decision_witness :
  x_conference juliet_invites = Some juliet_x
  /\ x_jid juliet_x = Some "orchard@muc.lit"
  /\ exists c room w',
       @onDirectMUCInvitation sample_externals juliet_invites willing_world
       = (Ok tt, w')
       /\ chatboxes w' !! c = Some room
       /\ model_get (attributes room) "password" = VStr "secret"
       /\ trace w'
          = [Confirm invitation_prompt_reason
               [VStr "Juliet"; VStr "orchard@muc.lit"; VStr "come"];
             RoomsGet (VStr "orchard@muc.lit")
               (Some (room_settings (VStr "orchard@muc.lit")
                        {[ "password" := VStr "secret" ]})) true;
             MaybeShow c true;
             Rejoin c].
Proof.
  split; [reflexivity|]. split; [reflexivity|].
  destruct (@onDirectMUCInvitation_decision sample_externals juliet_invites
              juliet_x "orchard@muc.lit" willing_world eq_refl eq_refl)
    as [_ Haccept].
  destruct (Haccept eq_refl)
    as (c & room & w' & Hrun & _ & Hroom & _ & Htrace & Hnew & _).
  destruct (Hnew eq_refl) as (_ & Hattrs & Hstatus).
  exists c, room, w'. split; [exact Hrun|]. split; [exact Hroom|]. split.
  - rewrite Hattrs. reflexivity.
  - rewrite Htrace, Hstatus. reflexivity.
Defined.

(** * Further properties of the module *)

(** ** The handlers as the connection sees them *)

Section Handlers.
Context `{Externals}.

(** X1.  Every handler that the module registers with the connection is
    registered for message stanzas and returns [true] on every stanza, in
    every state, also when the work it starts throws: none is ever
    unregistered, and none throws into the connection. *)
Theorem registered_handlers_stay (r : Registration) (stanza : Stanza)
    (w : World) :
  r ∈ all_registrations ->
  reg_name r = "message"
  /\ exists w', run_callback (reg_callback r) stanza w = (Ok true, w').
Proof.
  intros Hr. split.
  - unfold all_registrations, registerDirectInvitationHandler,
      registerPEPPushHandler, onBeforeResourceBinding in Hr.
    simpl in Hr. repeat (apply elem_of_cons in Hr as [->|Hr]; [done|]).
    by apply elem_of_nil in Hr.
  - apply callbacks_return_true.
Qed.

(** X2.  [checkIfMEP] leaves the world exactly as it was, without even
    asking the directory, for a stanza that holds no pubsub event and for
    a notification that comes from the user's own bare JID. *)
Theorem checkIfMEP_ignores (stanza : Stanza) (w : World) :
  pubsub_events stanza = 0
  \/ isSameBareJID (of_attr (stanza_from stanza)) (VStr (bare_jid w)) = true ->
  checkIfMEP stanza w = (Ok true, w).
Proof.
  intros Hcase. unfold checkIfMEP, bind, try_catch, call_async, ret.
  destruct (Nat.eqb (pubsub_events stanza) 0) eqn:Hev; simpl; [done|].
  destruct Hcase as [Hzero|Hself].
  - apply Nat.eqb_neq in Hev. done.
  - by rewrite handleMEPNotification_self.
Qed.

(** Every way in which [handleMEPNotification] can end: the trace grows,
    and the log of the sender's room grows by the decoded records, if by
    anything. *)
Lemma handleMEPNotification_cases (stanza : Stanza) (w : World) :
  exists o t room activities,
    handleMEPNotification stanza w
    = (o,
       set_trace (trace w ++ t)
         (set_chatboxes
            (alter (append_messages activities) room (chatboxes w)) w))
    /\ Forall (fun e => match e with
                        | RoomsGet _ _ _ | LogWarn _ | Trigger _ _ => True
                        | _ => False
                        end) t
    /\ (activities ≠ [] ->
        collection_get (of_attr (stanza_from stanza)) (chatboxes w)
        = Some room)
    /\ (forall e, o = Throw e -> activities = []).
Proof.
  assert (forall t, set_trace (trace w ++ t)
            (set_chatboxes (alter (append_messages []) 0 (chatboxes w)) w)
          = set_trace (trace w ++ t) w) as Hsame.
  { intros t. rewrite list_alter_id by apply append_messages_nil.
    by rewrite set_chatboxes_same. }
  destruct (isSameBareJID (of_attr (stanza_from stanza))
              (VStr (bare_jid w))) eqn:Hself.
  { exists (Ok tt), [], 0, []. rewrite handleMEPNotification_self by done.
    rewrite Hsame, app_nil_r, set_trace_same. by repeat split. }
  destruct (collection_get (of_attr (stanza_from stanza)) (chatboxes w))
    as [room|] eqn:Hget.
  2:{ eexists (Ok tt), _, 0, [].
      rewrite handleMEPNotification_unknown_room by done.
      rewrite Hsame. split; [reflexivity|]. by repeat constructor. }
  destruct (collection_get_Some _ _ _ Hget) as (model & a & Hroom & _ & _).
  destruct (findWhere_msgid (of_attr (stanza_id stanza)) (messages model))
    eqn:Hdup.
  { eexists (Ok tt), _, 0, [].
    erewrite handleMEPNotification_duplicate by done.
    rewrite Hsame. split; [reflexivity|]. by repeat constructor. }
  destruct (getMEPActivities stanza model) as [e|activities] eqn:Hdecode.
  - eexists (Throw e), _, 0, [].
    erewrite handleMEPNotification_decode_failure by done.
    rewrite Hsame. split; [reflexivity|]. by repeat constructor.
  - eexists (Ok tt), _, room, activities.
    erewrite handleMEPNotification_fresh by done.
    split; [reflexivity|]. split; [|done].
    constructor; [done|]. unfold message_events.
    apply Forall_forall. intros e (attrs & -> & _)%list_elem_of_fmap. done.
Qed.

(** X3.  Whatever the stanza and whatever the parser does with it,
    [checkIfMEP] returns [true] and only ever appends to message logs: the
    chatboxes keep their number, their attributes and their sessions, the
    log of each is extended at its end if at all, and a chatbox other than
    the one the sender resolves to is not touched; nor is the store of
    settings objects. *)
Theorem checkIfMEP_appends_only (stanza : Stanza) (w : World) :
  exists w',
    checkIfMEP stanza w = (Ok true, w')
    /\ heap w' = heap w
    /\ length (chatboxes w') = length (chatboxes w)
    /\ forall i m,
         chatboxes w !! i = Some m ->
         exists m',
           chatboxes w' !! i = Some m'
           /\ attributes m' = attributes m
           /\ session m' = session m
           /\ messages m `prefix_of` messages m'
           /\ (collection_get (of_attr (stanza_from stanza)) (chatboxes w)
               ≠ Some i -> m' = m).
Proof.
  destruct (handleMEPNotification_cases stanza w)
    as (o & t & room & activities & Hrun & _ & Hroom & _).
  assert (forall i m,
            chatboxes w !! i = Some m ->
            exists m',
              alter (append_messages activities) room (chatboxes w) !! i
              = Some m'
              /\ attributes m' = attributes m
              /\ session m' = session m
              /\ messages m `prefix_of` messages m'
              /\ (collection_get (of_attr (stanza_from stanza))
                    (chatboxes w) ≠ Some i -> m' = m)) as Hframe.
  { intros i m Hm. destruct (decide (room = i)) as [->|Hne].
    - exists (append_messages activities m).
      rewrite list_lookup_alter_eq, Hm. repeat split; try done.
      + by apply prefix_app_r.
      + intros Hother. destruct activities as [|attrs rest].
        * apply append_messages_nil.
        * exfalso. apply Hother, Hroom. done.
    - exists m. by rewrite list_lookup_alter_ne. }
  unfold checkIfMEP, bind, try_catch, call_async, ret.
  destruct (negb (Nat.eqb (pubsub_events stanza) 0)).
  - rewrite Hrun. destruct o as [[]|e|]; eexists;
      (split; [reflexivity|]); simpl;
      (split; [done|]); (split; [by rewrite length_alter|]);
      exact Hframe.
  - exists w. repeat split; try done.
    intros i m Hm. exists m. by repeat split.
Qed.

(** X4.  When the parser throws on a notification that would otherwise be
    ingested, no message is created and no event is announced; the handler
    still returns [true], the error is not logged, and it is left behind
    as the reason of a rejection that nobody handles. *)
Theorem checkIfMEP_decode_failure (stanza : Stanza) (w : World)
    (room : nat) (model : ChatBox) (e : Error) :
  pubsub_events stanza ≠ 0 ->
  isSameBareJID (of_attr (stanza_from stanza)) (VStr (bare_jid w)) = false ->
  collection_get (of_attr (stanza_from stanza)) (chatboxes w) = Some room ->
  chatboxes w !! room = Some model ->
  findWhere_msgid (of_attr (stanza_id stanza)) (messages model) = false ->
  getMEPActivities stanza model = inl e ->
  checkIfMEP stanza w
  = (Ok true,
     set_trace
       (trace w ++
        [RoomsGet (of_attr (stanza_from stanza)) None false;
         UnhandledRejection e]) w).
Proof.
  intros Hev Hself Hget Hroom Hdup Hdecode.
  erewrite checkIfMEP_failure_unhandled;
    [|done|by eapply handleMEPNotification_decode_failure].
  f_equal. world_eq.
Qed.

End Handlers.

(** ** Marking rooms as disconnected *)

(** X5.  When the page unloads on a connection that is not a websocket,
    or on any connection whose session can be resumed (SMACKS is enabled
    and a resumption token is held), the unload listener changes nothing:
    every room keeps the connection status it had. *)
Theorem unload_keeps_resumable_sessions (w : World) :
  connection_type w ≠ "websocket"
  \/ (to_boolean (model_get (settings w) "enable_smacks") = true
      /\ to_boolean (model_get (converse_session w) "smacks_stream_id")
         = true) ->
  onStatusInitialized_listener w = (Ok tt, w).
Proof. apply unload_otherwise_nothing. Qed.

Lemma is_groupchat_session_save (status : ROOMSTATUS) (m : ChatBox) :
  is_groupchat (session_save status m) = is_groupchat m.
Proof. reflexivity. Qed.

(** X6.  [disconnectChatRooms] is idempotent: run a second time it changes
    nothing.  It adds, removes and moves no chatbox: each position holds
    the chatbox it held before, with the session marked disconnected when
    the chatbox is a groupchat, and exactly as it was otherwise; the rest
    of the world is as it was.  After it every groupchat is
    disconnected. *)
Theorem disconnectChatRooms_idempotent (w : World) :
  exists w',
    disconnectChatRooms w = (Ok tt, w')
    /\ disconnectChatRooms w' = (Ok tt, w')
    /\ w' = set_chatboxes
              (map (fun m =>
                      if is_groupchat m then session_save DISCONNECTED m
                      else m)
                 (chatboxes w)) w
    /\ length (chatboxes w') = length (chatboxes w)
    /\ (forall i m,
          chatboxes w !! i = Some m ->
          chatboxes w' !! i
          = Some (if is_groupchat m then session_save DISCONNECTED m
                  else m))
    /\ forall i m,
         chatboxes w' !! i = Some m -> is_groupchat m = true ->
         connection_status (session m) = DISCONNECTED.
Proof.
  destruct (disconnectChatRooms_spec w) as (boxes & Hrun & Hlen & Hboxes).
  exists (set_chatboxes boxes w). split; [done|].
  destruct (disconnectChatRooms_spec (set_chatboxes boxes w))
    as (boxes' & Hrun' & Hlen' & Hboxes').
  simpl in Hlen', Hboxes'.
  assert (boxes' = boxes) as ->.
  { apply list_eq. intros i.
    destruct (chatboxes w !! i) as [m|] eqn:Hm.
    - pose proof (Hboxes i m Hm) as Hi. rewrite (Hboxes' i _ Hi), Hi.
      f_equal. destruct (is_groupchat m) eqn:Hg.
      + by rewrite is_groupchat_session_save, Hg.
      + by rewrite Hg.
    - apply lookup_ge_None in Hm.
      rewrite !(proj2 (lookup_ge_None _ _)); [done|lia|lia]. }
  split; [by rewrite Hrun'|]. split.
  { f_equal. apply list_eq. intros i. rewrite list_lookup_fmap.
    destruct (chatboxes w !! i) as [m|] eqn:Hm.
    - by rewrite (Hboxes i m Hm).
    - apply lookup_ge_None in Hm. simpl.
      apply lookup_ge_None. lia. }
  split; [done|]. split; [exact Hboxes|].
  simpl. intros i m Hm Hg.
  destruct (chatboxes w !! i) as [m0|] eqn:Hm0.
  - rewrite (Hboxes i m0 Hm0) in Hm. injection Hm as <-.
    destruct (is_groupchat m0) eqn:Hg0; [done|congruence].
  - apply lookup_ge_None in Hm0. apply lookup_lt_Some in Hm. lia.
Qed.

Lemma positions_from_ext (p q : ChatBox -> bool) (k : nat)
    (l : list ChatBox) :
  (forall m, p m = q m) -> positions_from p k l = positions_from q k l.
Proof.
  intros Hpq. revert k. induction l as [|m l IH]; intros k; simpl; [done|].
  by rewrite Hpq, IH.
Qed.

(** [where({ type })] and [filter(m => m.get('type') === type)] select the
    same chatboxes. *)
Lemma where_type_is_filter (l : list ChatBox) :
  collection_where "type" (VStr CHATROOMS_TYPE) l
  = collection_filter is_groupchat l.
Proof.
  unfold collection_where, collection_filter. apply positions_from_ext.
  intros m. unfold is_groupchat, model_get.
  by destruct (attributes m !! "type").
Qed.

Lemma forEach_alter (f : ChatBox -> ChatBox) (rs : list nat) (w : World) :
  forEach rs
    (fun r => fun w' =>
       (Ok tt, set_chatboxes (alter f r (chatboxes w')) w')) w
  = (Ok tt,
     set_chatboxes (foldl (fun cs r => alter f r cs) (chatboxes w) rs) w).
Proof.
  revert w. induction rs as [|r rs IH]; intros w; simpl.
  - unfold ret. by rewrite set_chatboxes_same.
  - unfold bind at 1. by rewrite IH.
Qed.

(** X7.  [onBeforeTearDown] hands the session of every groupchat, and of
    no other chatbox, to [safeSave] with the status disconnected, and
    touches nothing else: attributes, messages and the number of chatboxes
    stay.  With a [safeSave] that stores what it is given, it does exactly
    what [disconnectChatRooms] does. *)
Theorem onBeforeTearDown_groupchat_sessions
    (safeSave : Session -> Session -> Session) (w : World) :
  exists boxes,
    onBeforeTearDown safeSave w = (Ok tt, set_chatboxes boxes w)
    /\ length boxes = length (chatboxes w)
    /\ (forall i m,
          chatboxes w !! i = Some m ->
          boxes !! i
          = Some (if is_groupchat m
                  then with_session
                         (safeSave (session m)
                            {| connection_status := DISCONNECTED |}) m
                  else m))
    /\ ((forall s attrs, safeSave s attrs = attrs) ->
        onBeforeTearDown safeSave w = disconnectChatRooms w).
Proof.
  set (f := fun m : ChatBox =>
              with_session
                (safeSave (session m)
                   {| connection_status := DISCONNECTED |}) m).
  assert (onBeforeTearDown safeSave w
          = (Ok tt,
             set_chatboxes
               (foldl (fun cs r => alter f r cs) (chatboxes w)
                  (collection_filter is_groupchat (chatboxes w))) w))
    as Hrun.
  { unfold onBeforeTearDown, bind, get_world.
    rewrite where_type_is_filter. apply (forEach_alter f). }
  eexists. split; [exact Hrun|]. split; [apply foldl_alter_length|]. split.
  - intros i m Hm. destruct (is_groupchat m) eqn:Hg.
    + rewrite foldl_alter_once, Hm; [done|apply positions_from_NoDup|].
      apply collection_filter_spec. eauto.
    + rewrite foldl_alter_not_elem; [done|].
      rewrite collection_filter_spec. intros (m' & Hm' & Hg'). congruence.
  - intros Hsave. rewrite Hrun.
    unfold disconnectChatRooms, bind, get_world.
    rewrite forEach_save_connection_status. fold is_groupchat.
    do 2 f_equal.
    generalize (collection_filter is_groupchat (chatboxes w)).
    generalize (chatboxes w).
    intros l rs. revert l. induction rs as [|r rs IH]; intros l; [done|].
    simpl. rewrite IH. f_equal. apply list_alter_ext; [|done].
    intros m _. unfold f, session_save. by rewrite Hsave.
Qed.

(** ** Roles, nicknames and info messages *)

(** X8.  [getAssignableRoles] never throws and has no effect, whatever the
    occupant and the setting; what it returns is a selection from [ROLES]
    in their order.  When [modtools_disable_assign] is unset, or set to a
    falsy value that is not an array, nothing is disabled: a moderator may
    assign every role. *)
Theorem getAssignableRoles_defaults (occupant : Model) (w : World) :
  exists roles,
    getAssignableRoles occupant w = (Ok roles, w)
    /\ sublist roles ROLES
    /\ (model_get occupant "role" = VStr "moderator" ->
        to_boolean (model_get (settings w) "modtools_disable_assign")
        = false ->
        roles = ROLES).
Proof.
  unfold getAssignableRoles, bind, settings_get, ret.
  destruct (strict_equals (model_get occupant "role") (VStr "moderator"))
    eqn:Hrole.
  - eexists. split; [reflexivity|]. split.
    + unfold ROLES. simpl.
      repeat match goal with
             | |- context [negb ?b] => destruct b; simpl
             end;
        repeat first [ apply sublist_nil | apply sublist_skip
                     | apply sublist_cons ].
    + intros _ Hfalsy.
      destruct (model_get (settings w) "modtools_disable_assign");
        try discriminate; simpl in *; rewrite ?Hfalsy; reflexivity.
  - exists []. split; [done|]. split; [apply sublist_nil_l|].
    intros Hmod. apply strict_equals_VStr in Hmod. congruence.
Qed.

Section NicknameFallback.
Context `{Externals}.

(** X9.  Once the status is initialised, [getDefaultMUCNickname] never
    throws and changes nothing.  A non-empty nickname of the status wins
    over the [muc_nickname_from_jid] setting; without a nickname the
    result is derived from the user's bare JID if that setting is on, and
    is [undefined] if it is off. *)
Theorem getDefaultMUCNickname_fallback (w : World) (status : XMPPStatus) :
  xmppstatus w = Some status ->
  exists nick,
    getDefaultMUCNickname w = (Ok nick, w)
    /\ (to_boolean (nickname status) = true -> nick = nickname status)
    /\ (to_boolean (nickname status) = false ->
        nick = if to_boolean (model_get (settings w) "muc_nickname_from_jid")
               then unescapeNode (getNodeFromJid (VStr (bare_jid w)))
               else VUndefined).
Proof.
  intros Hs. unfold getDefaultMUCNickname, bind, get_world, settings_get, ret.
  rewrite Hs. destruct (to_boolean (nickname status)).
  - eexists. by repeat split.
  - destruct (to_boolean _); eexists; by repeat split.
Qed.

End NicknameFallback.

Section InfoVisible.
Variable string_includes : string -> Value -> bool.

(** X10.  [isInfoVisible] never changes the state.  With an array of
    codes configured it returns [true] for a code that is a string exactly
    when the array holds that string; with the setting unset it throws
    instead of answering. *)
Theorem isInfoVisible_membership (code : string) (w : World) :
  (forall elems,
     model_get (settings w) "muc_show_info_messages" = VArr elems ->
     exists visible,
       isInfoVisible string_includes (VStr code) w = (Ok visible, w)
       /\ (visible = true <-> VStr code ∈ elems))
  /\ (model_get (settings w) "muc_show_info_messages" = VUndefined ->
      exists e, isInfoVisible string_includes (VStr code) w = (Throw e, w)).
Proof.
  unfold isInfoVisible, bind, settings_get, ret, throw. split.
  - intros elems ->. destruct (includes elems (VStr code)) eqn:Hin.
    + exists true. split; [done|]. split; [|done].
      intros _. by apply includes_VStr.
    + exists false. split; [done|]. split; [done|].
      intros Hel. apply includes_VStr in Hel. congruence.
  - intros ->. by eexists.
Qed.

End InfoVisible.

(** ** Auto-join, for every list *)

(** One entry again, with an eye on what is not done. *)
Lemma autoJoinRooms_entry_effects (muc : Value) (w : World) :
  exists p t,
    autoJoinRooms_entry muc w
    = (Ok p,
       set_opened (opened w + length (pending_of [p]))
         (set_trace (trace w ++ t) w))
    /\ List.filter is_trigger t = []
    /\ (opens_nothing (chatboxes w) muc = true ->
        p = Resolved
        /\ t = map (fun _ => LogError invalid_muc_criteria)
                 (invalid_entries [muc])).
Proof.
  unfold opens_nothing, invalid_entries.
  destruct (is_string muc) eqn:Hs; [|destruct (isObject muc) eqn:Ho].
  - destruct muc as [| | | |jid| |]; try discriminate.
    destruct (collection_where "jid" (VStr jid) (chatboxes w))
      as [|r rs] eqn:Hw.
    + exists (Opening (opened w)), [RoomsOpen (opened w) (VStr jid) None].
      rewrite autoJoinRooms_entry_unknown by done.
      split; [by rewrite Nat.add_1_r|]. split; [done|]. simpl. discriminate.
    + exists Resolved, [].
      rewrite autoJoinRooms_entry_known by (by rewrite Hw).
      split; [|done]. simpl. rewrite Nat.add_0_r, app_nil_r. by destruct w.
  - exists (Opening (opened w)),
      [RoomsOpen (opened w) (get_property muc "jid") (Some (spread muc))].
    rewrite autoJoinRooms_entry_object by done.
    split; [by rewrite Nat.add_1_r|]. split; [done|]. simpl. discriminate.
  - exists Resolved, [LogError invalid_muc_criteria].
    rewrite autoJoinRooms_entry_invalid by done.
    split; [simpl; by rewrite Nat.add_0_r|]. split; [done|].
    intros _. simpl. by rewrite Hs, Ho.
Qed.

Lemma mapM_autoJoinRooms_entry_effects (entries : list Value) (w : World) :
  exists ps t,
    mapM autoJoinRooms_entry entries w
    = (Ok ps,
       set_opened (opened w + length (pending_of ps))
         (set_trace (trace w ++ t) w))
    /\ List.filter is_trigger t = []
    /\ (forallb (opens_nothing (chatboxes w)) entries = true ->
        pending_of ps = []
        /\ t = map (fun _ => LogError invalid_muc_criteria)
                 (invalid_entries entries)).
Proof.
  revert w. induction entries as [|muc entries IH]; intros w.
  - exists [], []. split; [|done].
    simpl. unfold ret. rewrite Nat.add_0_r, app_nil_r. by destruct w.
  - destruct (autoJoinRooms_entry_effects muc w)
      as (p & t1 & Hrun1 & Hquiet1 & Hnone1).
    set (w1 := set_opened (opened w + length (pending_of [p]))
                 (set_trace (trace w ++ t1) w)) in *.
    destruct (IH w1) as (ps & t2 & Hrun2 & Hquiet2 & Hnone2).
    exists (p :: ps), (t1 ++ t2). split; [|split].
    + cbn [mapM]. unfold bind at 1. rewrite Hrun1.
      unfold bind at 1. rewrite Hrun2. unfold ret. f_equal.
      subst w1. unfold set_opened, set_trace. simpl.
      rewrite <- app_assoc. f_equal.
      destruct p; simpl; lia.
    + by rewrite List.filter_app, Hquiet1, Hquiet2.
    + intros [Hmuc Hrest]%andb_true_iff.
      destruct (Hnone1 Hmuc) as [-> ->].
      destruct (Hnone2 Hrest) as [Hps ->].
      split; [done|]. unfold invalid_entries. simpl.
      by destruct (negb (is_string muc) && negb (isObject muc)).
Qed.

(** X11.  For every configuration and every course of the open
    operations, [autoJoinRooms] only reads the chatboxes and the store,
    and it fires roomsAutoJoined exactly when it completes: then once, as
    the last thing it does, and after an auto-join list that is an array.
    When it throws or keeps waiting, because the setting is not an array,
    an open operation is rejected or one never settles, no event is
    fired. *)
Theorem autoJoinRooms_event_iff_completed (w : World) :
  exists o w' t,
    autoJoinRooms w = (o, w')
    /\ trace w' = trace w ++ t
    /\ chatboxes w' = chatboxes w
    /\ heap w' = heap w
    /\ (o = Ok tt ->
        exists before entries,
          t = before ++ [Trigger "roomsAutoJoined" NoPayload]
          /\ List.filter is_trigger before = []
          /\ model_get (settings w) "auto_join_rooms" = VArr entries)
    /\ (o ≠ Ok tt -> List.filter is_trigger t = []).
Proof.
  destruct (model_get (settings w) "auto_join_rooms") as [| | | | |entries|]
    eqn:Hcfg;
    try (exists (Throw (TypeError "map is not a function")), w, [];
         unfold autoJoinRooms, bind, settings_get; rewrite Hcfg;
         rewrite app_nil_r; by repeat split).
  destruct (mapM_autoJoinRooms_entry_effects entries w)
    as (ps & t & Hmap & Hquiet & _).
  set (w1 := set_opened (opened w + length (pending_of ps))
               (set_trace (trace w ++ t) w)) in *.
  pose proof (settle_only_settlements (schedule w1) (pending_of ps)) as Hes.
  destruct (settle (schedule w1) (pending_of ps)) as [[o es] s] eqn:Hsettle.
  simpl in Hes. apply settlements_no_trigger in Hes.
  rewrite (autoJoinRooms_run entries w w1 ps o es s Hcfg Hmap Hsettle).
  destruct o as [[]|e|].
  - eexists _, _, (t ++ es ++ [Trigger "roomsAutoJoined" NoPayload]).
    split; [reflexivity|]. simpl. rewrite <- !app_assoc.
    repeat split; try done.
    intros _. exists (t ++ es), entries. rewrite <- app_assoc.
    split; [done|]. split; [|done]. by rewrite List.filter_app, Hquiet, Hes.
  - eexists _, _, (t ++ es). split; [reflexivity|]. simpl.
    rewrite <- !app_assoc. repeat split; try done.
    intros _. by rewrite List.filter_app, Hquiet, Hes.
  - eexists _, _, (t ++ es). split; [reflexivity|]. simpl.
    rewrite <- !app_assoc. repeat split; try done.
    intros _. by rewrite List.filter_app, Hquiet, Hes.
Qed.

Lemma settle_nothing (sched : list (nat * option Error)) :
  settle sched [] = (Ok tt, [], sched).
Proof. by destruct sched. Qed.

(** X12.  When no entry of the auto-join list leads to an open operation
    (the list is empty, or each entry is the JID of a chatbox that exists
    or is neither a string nor an object), [autoJoinRooms] completes
    without waiting for anything, whatever else is pending: it logs one
    error per malformed entry, fires roomsAutoJoined, and leaves the rest
    of the world as it was. *)
Theorem autoJoinRooms_nothing_to_open (entries : list Value) (w : World) :
  model_get (settings w) "auto_join_rooms" = VArr entries ->
  forallb (opens_nothing (chatboxes w)) entries = true ->
  autoJoinRooms w
  = (Ok tt,
     set_trace
       (trace w
        ++ map (fun _ => LogError invalid_muc_criteria)
             (invalid_entries entries)
        ++ [Trigger "roomsAutoJoined" NoPayload]) w).
Proof.
  intros Hcfg Hquiet.
  destruct (mapM_autoJoinRooms_entry_effects entries w)
    as (ps & t & Hmap & _ & Hnone).
  destruct (Hnone Hquiet) as [Hps ->].
  rewrite Hps in Hmap. simpl in Hmap. rewrite Nat.add_0_r in Hmap.
  erewrite (autoJoinRooms_run entries w _ ps (Ok tt) [] _ Hcfg Hmap);
    [|rewrite Hps; apply settle_nothing].
  f_equal. destruct w. unfold set_trace, set_schedule, set_opened. simpl.
  by rewrite <- app_assoc.
Qed.

(** ** Opening rooms *)

Lemma room_settings_twice (jid : Value) (fields : Model) :
  room_settings jid (room_settings jid fields) = room_settings jid fields.
Proof.
  unfold room_settings. apply map_eq. intros key.
  rewrite !lookup_insert. by repeat case_decide.
Qed.

(** After [openChatRoom] the directory knows the room it returned. *)
Lemma openChatRoom_then_known (j : string) (settings : nat) (fields : Model)
    (w : World) :
  heap w !! settings = Some fields ->
  exists c w1,
    openChatRoom (VStr j) settings w = (Ok c, w1)
    /\ collection_get (VStr j) (chatboxes w1) = Some c
    /\ heap w1 = <[settings := room_settings (VStr j) fields]> (heap w)
    /\ length (chatboxes w1) <= S (length (chatboxes w))
    /\ chatboxes w `prefix_of` chatboxes w1.
Proof.
  intros Hfields. rewrite (openChatRoom_run _ _ _ _ Hfields).
  destruct (collection_get (VStr j) (chatboxes w)) as [c|] eqn:Hget.
  - exists c. eexists. split; [reflexivity|]. simpl.
    repeat split; try done. lia.
  - eexists _, _. split; [reflexivity|].
    cbn [chatboxes heap set_trace set_chatboxes set_heap].
    split; [by apply collection_get_new_room|]. split; [done|].
    split; [rewrite length_app; simpl; lia|]. by apply prefix_app_r.
Qed.

(** X13.  Opening the same room twice through [openChatRoom] with the
    same settings object yields the same room both times: the second call
    adds no chatbox and leaves the settings object as the first call left
    it, and the two calls together add at most one chatbox, at the end of
    the collection. *)
Theorem openChatRoom_twice_same_room (j : string) (settings : nat)
    (fields : Model) (w : World) :
  heap w !! settings = Some fields ->
  exists c w1 w2,
    openChatRoom (VStr j) settings w = (Ok c, w1)
    /\ openChatRoom (VStr j) settings w1 = (Ok c, w2)
    /\ chatboxes w2 = chatboxes w1
    /\ heap w2 = heap w1
    /\ length (chatboxes w1) <= S (length (chatboxes w))
    /\ chatboxes w `prefix_of` chatboxes w1.
Proof.
  intros Hfields.
  destruct (openChatRoom_then_known j settings fields w Hfields)
    as (c & w1 & Hrun1 & Hknown & Hheap & Hlen & Hprefix).
  assert (heap w1 !! settings = Some (room_settings (VStr j) fields))
    as Hfields1.
  { rewrite Hheap. apply list_lookup_insert_eq. by eapply lookup_lt_Some. }
  exists c, w1. eexists. split; [done|].
  rewrite (openChatRoom_run _ _ _ _ Hfields1), Hknown.
  split; [reflexivity|]. simpl. repeat split; try done.
  rewrite room_settings_twice. by apply list_insert_id.
Qed.

Section RouteToRoom.
Variable isValidMUCJID : string -> bool.
Variable fires : string -> bool.

(** X14.  [routeToRoom] opens a room only for a JID that is valid, and
    only once roomsAutoJoined has fired and, if bookmarks are allowed,
    bookmarksInitialized too: then it makes exactly one call to open that
    JID.  For an invalid JID it logs a warning and opens nothing; while a
    milestone is outstanding it waits, and the world is as it was. *)
Theorem routeToRoom_waits_for_milestones (jid : string) (w : World) :
  let ready :=
    fires "roomsAutoJoined"
    && (negb (to_boolean (model_get (settings w) "allow_bookmarks"))
        || fires "bookmarksInitialized") in
  routeToRoom isValidMUCJID fires jid w
  = if negb (isValidMUCJID jid)
    then (Ok tt, set_trace (trace w ++ [LogWarn (invalid_jid_warning jid)]) w)
    else if ready
    then (Ok tt,
          set_opened (S (opened w))
            (set_trace (trace w ++ [RoomsOpen (opened w) (VStr jid) None]) w))
    else (Pending, w).
Proof.
  unfold routeToRoom, waitUntil, bind, settings_get, ret, rooms_open.
  destruct (isValidMUCJID jid); simpl; [|done].
  destruct (fires "roomsAutoJoined"); simpl; [|done].
  destruct (to_boolean (model_get (settings w) "allow_bookmarks")); simpl;
    [|done].
  by destruct (fires "bookmarksInitialized").
Qed.

End RouteToRoom.

(** ** Invitations and put-aside stanzas *)

Section Invitations.
Context `{Externals}.


End Invitations.

(** ** The further statements at work on the example scenarios *)

Lemma registered_handlers_stay_witness :
  {| reg_callback := CheckIfMEP; reg_ns := None; reg_name := "message";
     reg_type := Some "groupchat" |} ∈ all_registrations
  /\ exists w',
       @run_callback failing_externals CheckIfMEP single_notice room_world
       = (Ok true, w').
Proof.
  assert ({| reg_callback := CheckIfMEP; reg_ns := None;
             reg_name := "message"; reg_type := Some "groupchat" |}
          ∈ all_registrations) as Hin by (do 2 right; left).
  split; [exact Hin|].
  exact (proj2 (@registered_handlers_stay failing_externals _ single_notice
                  room_world Hin)).
Defined.

Lemma checkIfMEP_ignores_witness :
  @isSameBareJID sample_externals (of_attr (stanza_from own_notice))
    (VStr (bare_jid room_world)) = true
  /\ @checkIfMEP sample_externals own_notice room_world
     = (Ok true, room_world).
Proof.
  split; [reflexivity|].
  apply (@checkIfMEP_ignores sample_externals own_notice room_world).
  right. reflexivity.
Defined.

Lemma checkIfMEP_decode_failure_witness :
  pubsub_events single_notice ≠ 0
  /\ @getMEPActivities failing_externals single_notice
       (sample_chatbox "room@muc.lit" "chatroom" CONNECTED)
     = inl (Err "malformed activity")
  /\ chatboxes
       (snd (@checkIfMEP failing_externals single_notice room_world))
     = chatboxes room_world.
Proof.
  split; [discriminate|]. split; [reflexivity|].
  rewrite (@checkIfMEP_decode_failure failing_externals single_notice
             room_world 0
             (sample_chatbox "room@muc.lit" "chatroom" CONNECTED)
             (Err "malformed activity"));
    try reflexivity.
  discriminate.
Defined.

Lemma unload_keeps_resumable_sessions_witness :
  connection_type resumable_world = "websocket"
  /\ to_boolean (model_get (settings resumable_world) "enable_smacks") = true
  /\ to_boolean
       (model_get (converse_session resumable_world) "smacks_stream_id")
     = true
  /\ onStatusInitialized_listener resumable_world = (Ok tt, resumable_world).
Proof.
  split; [reflexivity|]. split; [reflexivity|]. split; [reflexivity|].
  apply (unload_keeps_resumable_sessions resumable_world).
  right. split; reflexivity.
Defined.

Lemma onBeforeTearDown_groupchat_sessions_witness :
  onBeforeTearDown saving_safeSave mixed_world
  = disconnectChatRooms mixed_world.
Proof.
  destruct (onBeforeTearDown_groupchat_sessions saving_safeSave mixed_world)
    as (boxes & _ & _ & _ & Hsame).
  apply Hsame. reflexivity.
Defined.

Lemma getAssignableRoles_defaults_witness :
  model_get (settings room_world) "modtools_disable_assign" = VUndefined
  /\ getAssignableRoles moderator room_world = (Ok ROLES, room_world).
Proof.
  split; [reflexivity|].
  destruct (getAssignableRoles_defaults moderator room_world)
    as (roles & Hrun & _ & Hall).
  rewrite Hrun. by rewrite (Hall eq_refl eq_refl).
Defined.

Lemma getDefaultMUCNickname_fallback_witness :
  xmppstatus anonymous_world = Some {| nickname := VStr EmptyString |}
  /\ @getDefaultMUCNickname sample_externals anonymous_world
     = (Ok VUndefined, anonymous_world).
Proof.
  split; [reflexivity|].
  destruct (@getDefaultMUCNickname_fallback sample_externals anonymous_world
              _ eq_refl) as (nick & Hrun & _ & Hnone).
  rewrite Hrun. by rewrite (Hnone eq_refl).
Defined.

Lemma isInfoVisible_membership_witness :
  model_get (settings info_world) "muc_show_info_messages"
  = VArr [VStr "110"; VStr "307"]
  /\ isInfoVisible (fun _ _ => false) (VStr "307") info_world
     = (Ok true, info_world)
  /\ exists e,
       isInfoVisible (fun _ _ => false) (VStr "307") room_world
       = (Throw e, room_world).
Proof.
  split; [reflexivity|]. split.
  - destruct (isInfoVisible_membership (fun _ _ => false) "307" info_world)
      as [Harray _].
    destruct (Harray _ eq_refl) as (visible & Hrun & Hiff).
    rewrite Hrun. f_equal. f_equal. apply Hiff. right. left.
  - destruct (isInfoVisible_membership (fun _ _ => false) "307" room_world)
      as [_ Hunset].
    exact (Hunset eq_refl).
Defined.

Lemma autoJoinRooms_nothing_to_open_witness :
  model_get (settings quiet_world) "auto_join_rooms"
  = VArr [VStr "room1@conf.example"; VNum 42; VNull]
  /\ schedule quiet_world = []
  /\ autoJoinRooms quiet_world
     = (Ok tt,
        set_trace
          [LogError invalid_muc_criteria; LogError invalid_muc_criteria;
           Trigger "roomsAutoJoined" NoPayload] quiet_world).
Proof.
  split; [reflexivity|]. split; [reflexivity|].
  apply (autoJoinRooms_nothing_to_open
           [VStr "room1@conf.example"; VNum 42; VNull] quiet_world);
    reflexivity.
Defined.

Lemma openChatRoom_twice_same_room_witness :
  heap caller_world !! 0 = Some caller_settings
  /\ exists c w1 w2,
       openChatRoom (VStr "orchard@muc.lit") 0 caller_world = (Ok c, w1)
       /\ openChatRoom (VStr "orchard@muc.lit") 0 w1 = (Ok c, w2)
       /\ chatboxes w2 = chatboxes w1.
Proof.
  split; [reflexivity|].
  destruct (openChatRoom_twice_same_room "orchard@muc.lit" 0 caller_settings
              caller_world eq_refl)
    as (c & w1 & w2 & Hrun1 & Hrun2 & Hboxes & _).
  exists c, w1, w2. split; [exact Hrun1|]. split; [exact Hrun2|exact Hboxes].
Defined.


(** * Notifications that overtake each other *)

Section Interleaving.
Context `{Externals}.

(** The two steps of [handleMEPNotification], taken one right after the
    other, are the function. *)
Lemma handleMEPNotification_split (stanza : Stanza) (w : World) :
  handleMEPNotification stanza w
  = (task <- handleMEPNotification_start stanza ;;
     match task with
     | Some t => handleMEPNotification_resume t
     | None => ret tt
     end) w.
Proof.
  unfold handleMEPNotification, handleMEPNotification_start, bind, get_world.
  destruct (isSameBareJID _ _); [reflexivity|].
  unfold rooms_get, bind, emit, get_world, ret. cbn -[forEach].
  destruct (collection_get _ _); reflexivity.
Qed.

(** The start of the call always leaves the caller in peace. *)
Lemma handleMEPNotification_start_returns (stanza : Stanza) (w : World) :
  exists task w', handleMEPNotification_start stanza w = (Ok task, w').
Proof.
  unfold handleMEPNotification_start, bind, get_world.
  destruct (isSameBareJID _ _); [by eexists _, _|].
  unfold rooms_get, bind, emit, get_world, ret. simpl.
  destruct (collection_get _ _); by eexists _, _.
Qed.

(** [checkIfMEP], with its call run to the end where it is made, is the
    delivery followed at once by the resumption. *)
Lemma checkIfMEP_split (message : Stanza) (w : World) :
  checkIfMEP message w
  = (r <- checkIfMEP_deliver message ;;
     resume_task (snd r) ;;
     ret (fst r)) w.
Proof.
  destruct (handleMEPNotification_start_returns message w)
    as (task & w' & Hstart).
  unfold checkIfMEP, checkIfMEP_deliver, bind, try_catch, call_async,
    start_async, resume_task, ret.
  destruct (negb (pubsub_events message =? 0)%nat); [|reflexivity].
  rewrite handleMEPNotification_split. unfold bind, ret. rewrite Hstart.
  cbn [snd fst].
  destruct task as [t|]; [|reflexivity].
  unfold call_async.
  by destruct (handleMEPNotification_resume t w') as [[ | | ] ?].
Qed.







End Interleaving.



(** * Opening a room with the caller's settings *)



